(** * The FCD volume controller of cloud-provider-vsphere

    A shallow embedding of [pkg/csi/service/fcd/controller.go] and the
    properties of its request handlers: validation, capacity arithmetic,
    zone resolution, idempotent create, delete/publish asymmetry, the
    attribute maps and the pagination of [ListVolumes].

    The handlers talk to two collaborators (the connection manager and
    the vclib datacenter driver).  Their calls are the constructors of
    [Call]; a handler is a tree of such calls ([Prog]) that is run
    against any [Backend], producing the Go return values, the final
    backend state and the trace of the calls issued.  Log statements and
    the text of error messages are not part of the model. *)

From Stdlib Require Import ZArith String Ascii List Lia DecimalString.
From Stdlib Require Import DecimalPos.
From stdpp Require Import gmap strings list.

Open Scope Z_scope.

(** ** Go values *)

(** A signed 64-bit [int]/[int64] is a [Z]; arithmetic that can leave the
    range wraps around. *)
Definition minInt64 : Z := - 2 ^ 63.
Definition maxInt64 : Z := 2 ^ 63 - 1.
Definition wrap64 (z : Z) : Z := (z + 2 ^ 63) mod 2 ^ 64 - 2 ^ 63.

(** [m[k]] on a Go map: the zero value when the key is absent. *)
Definition mapIndex (m : gmap string string) (k : string) : string :=
  default EmptyString (m !! k).

(** [len(s) == 0] on a Go string. *)
Definition len (s : string) : Z := Z.of_nat (String.length s).

(** A slice that the code tests against [nil] is an [option (list A)]:
    [None] is the nil slice and [Some l] a non-nil one with the elements
    [l], so that [Some []] is the empty slice that is not nil. *)

(** [s != nil] on a slice. *)
Definition notNil {A} (s : option (list A)) : bool :=
  match s with None => false | Some _ => true end.

(** The elements a [for ... range s] loop visits: none for the nil
    slice. *)
Definition rangeOf {A} (s : option (list A)) : list A :=
  match s with None => [] | Some l => l end.

(** [s[lo:hi]] on a slice whose capacity is its length: a run-time panic
    ([None]) unless [0 <= lo <= hi <= len(s)]. *)
Definition slice {A} (s : list A) (lo hi : Z) : option (list A) :=
  if (0 <=? lo) && (lo <=? hi) && (hi <=? Z.of_nat (length s))
  then Some (take (Z.to_nat (hi - lo)) (drop (Z.to_nat lo) s))
  else None.

(** *** strconv

    [strconv.Atoi] and [strconv.Itoa] of the Go standard library, from
    their documentation: an optional sign, then at least one decimal
    digit, and a value that fits the 64-bit [int]; anything else is an
    error ([None]). *)
Definition digit (ch : ascii) : option Z :=
  let n := Z.of_N (N_of_ascii ch) in
  if (48 <=? n) && (n <=? 57) then Some (n - 48) else None.

Fixpoint parseDigits (s : string) (n : Z) : option Z :=
  match s with
  | EmptyString => Some n
  | String ch rest =>
      match digit ch with
      | Some d => parseDigits rest (n * 10 + d)
      | None => None
      end
  end.

Definition Atoi (s : string) : option Z :=
  match s with
  | EmptyString => None
  | String ch rest =>
      let neg := Ascii.eqb ch "-" in
      let body := if neg || Ascii.eqb ch "+" then rest else s in
      match body with
      | EmptyString => None
      | _ =>
          match parseDigits body 0 with
          | Some n =>
              let n := if neg then - n else n in
              if (minInt64 <=? n) && (n <=? maxInt64) then Some n else None
          | None => None
          end
      end
  end.

Definition Itoa (n : Z) : string := NilZero.string_of_int (Z.to_int n).

(** *** Errors and return values *)

(** [google.golang.org/grpc/codes]. *)
Inductive Code :=
| OK | Canceled | Unknown | InvalidArgument | DeadlineExceeded | NotFound
| AlreadyExists | PermissionDenied | ResourceExhausted | FailedPrecondition
| Aborted | OutOfRange | Unimplemented | Internal | Unavailable | DataLoss
| Unauthenticated.

(** A Go [error] value: one built by [status.Errorf(code, msg)], the
    sentinel [vclib.ErrNoDiskIDFound], or any other error of a
    collaborator. *)
Inductive error :=
| status_Errorf (code : Code)
| ErrNoDiskIDFound
| errors_New (msg : string).

(** What a handler does: it returns its two values, a response pointer
    and an [error] (either may be nil), or it panics. *)
Inductive Outcome (A : Type) :=
| Returns (resp : option A) (err : option error)
| Panics.
Arguments Returns {A} resp err.
Arguments Panics {A}.

Abbreviation Ok resp := (Returns (Some resp) None).
Abbreviation Err e := (Returns None (Some e)).

(** The gRPC code an outcome carries, if it is an error built by
    [status.Errorf]. *)
Definition codeOf {A} (o : Outcome A) : option Code :=
  match o with
  | Returns _ (Some (status_Errorf code)) => Some code
  | _ => None
  end.

(** ** Constants declared elsewhere in the repository

    The attribute keys, the topology labels and the vclib type names are
    string constants of files outside [controller.go]; the controller is
    parametric in them.  [removePortFromHost] is a helper of the same
    package. *)
Class PackageConsts := {
  AttributeFirstClassDiskType : string;
  AttributeFirstClassDiskName : string;
  AttributeFirstClassDiskParentType : string;
  AttributeFirstClassDiskParentName : string;
  AttributeFirstClassDiskOwningDatastore : string;
  AttributeFirstClassDiskVcenter : string;
  AttributeFirstClassDiskDatacenter : string;
  AttributeFirstClassDiskPage83Data : string;
  AttributeFirstClassDiskZone : string;
  AttributeFirstClassDiskRegion : string;
  FirstClassDiskTypeString : string;
  LabelZoneRegion : string;
  LabelZoneFailureDomain : string;
  (* vclib.ParentDatastoreType *)
  TypeDatastore : string;
  TypeDatastoreCluster : string;
  (* vclib SCSI controller type *)
  PVSCSIControllerType : string;
  removePortFromHost : string -> string
}.

(** Modelled from the spec: the size constants of the package, which
    [controller.go] uses and does not declare.  The default capacity is
    10 GiB, a gibibyte is 1024 megabytes of 2^20 bytes. *)
Definition DefaultGbDiskSize : Z := 10.
Definition MbInBytes : Z := 1024 * 1024.
Definition GbInBytes : Z := 1024 * 1024 * 1024.

(** [volumeutil.RoundUpSize] of k8s.io/kubernetes, from its
    documentation: how many allocation units are needed to accommodate a
    volume of the given size.  Go's [/] and [%] truncate towards zero. *)
Definition RoundUpSize (volumeSizeBytes allocationUnitBytes : Z) : Z :=
  let roundedUp := Z.quot volumeSizeBytes allocationUnitBytes in
  if Z.rem volumeSizeBytes allocationUnitBytes >? 0
  then wrap64 (roundedUp + 1)
  else roundedUp.

(** ** Data of the collaborators *)

(** [*vclib.Datacenter]: what the controller reads of it is [Name()] and
    [Client().URL().Host]. *)
Record Datacenter := {
  dc_Name : string;
  dc_Host : string
}.

(** [types.BaseConfigInfoBackingInfo]: the controller asserts the
    file-backed variant. *)
Inductive BaseConfigInfoBackingInfo :=
| BaseConfigInfoDiskFileBackingInfo (FilePath : string)
| BaseConfigInfoRawDiskMappingBackingInfo (LunUuid : string).

(** [*vclib.FirstClassDiskInfo], with the paths the controller follows:
    [Config.Id.Id], [Config.Name], [Config.CapacityInMB],
    [Config.Backing], [ParentType], [DatastoreInfo.Info.Name],
    [StoragePodInfo.Summary.Name] and [Datacenter].  The pointers a
    collaborator returns without an error are taken to be non-nil. *)
Record FirstClassDiskInfo := {
  fcd_Datacenter : Datacenter;
  Config_Id_Id : string;
  Config_Name : string;
  Config_CapacityInMB : Z;
  Config_Backing : BaseConfigInfoBackingInfo;
  ParentType : string;
  DatastoreInfo_Info_Name : string;
  StoragePodInfo_Summary_Name : string
}.

(** [*cm.ZoneDiscoveryInfo] and [*cm.FcdDiscoveryInfo]. *)
Record ZoneDiscoveryInfo := {
  VcServer : string;
  DataCenter : Datacenter
}.

Record FcdDiscoveryInfo := {
  fdi_VcServer : string;
  fdi_DataCenter : Datacenter;
  FCDInfo : FirstClassDiskInfo
}.

(** [*vclib.VirtualMachine], a handle. *)
Record VirtualMachine := { vm_Name : string }.

Record VolumeOptions := { SCSIControllerType : string }.

(** [vclib.FindFCD]. *)
Inductive FindFCD := FindFCDByID | FindFCDByName.

(** ** Calls to the collaborators

    One constructor per function or method of the connection manager and
    of vclib that [controller.go] calls ([ctx] is left out), and the Go
    type of what each returns: [error + T] for [(T, error)], [option
    error] for [error]. *)
Inductive Call :=
| WhichVCandDCByZone (zoneLabel regionLabel zoneLooking regionLooking : string)
| WhichVCandDCByFCDId (fcdID : string)
| GetFirstClassDisk (dc : Datacenter) (datastoreName datastoreType diskID : string)
    (findBy : FindFCD)
| CreateFirstClassDisk (dc : Datacenter) (datastoreName datastoreType diskName : string)
    (diskSize : Z)
| DeleteFirstClassDisk (dc : Datacenter) (datastoreName datastoreType diskID : string)
| GetVMByDNSName (dc : Datacenter) (nodeName : string)
| AttachDisk (vm : VirtualMachine) (vmDiskPath : string) (volumeOptions : VolumeOptions)
| DetachDisk (vm : VirtualMachine) (vmDiskPath : string)
| getAllFCDs.

Definition result (c : Call) : Type :=
  match c with
  | WhichVCandDCByZone _ _ _ _ => error + ZoneDiscoveryInfo
  | WhichVCandDCByFCDId _ => error + FcdDiscoveryInfo
  | GetFirstClassDisk _ _ _ _ _ => error + FirstClassDiskInfo
  | CreateFirstClassDisk _ _ _ _ _ => option error
  | DeleteFirstClassDisk _ _ _ _ => option error
  | GetVMByDNSName _ _ => error + VirtualMachine
  | AttachDisk _ _ _ => error + string
  | DetachDisk _ _ => option error
  | getAllFCDs => list FirstClassDiskInfo
  end%type.

(** A handler: a finite tree of calls, each continued by its result. *)
Inductive Prog (A : Type) : Type :=
| Ret (a : A)
| Do (c : Call) (k : result c -> Prog A).
Arguments Ret {A} a.
Arguments Do {A} c k.

Fixpoint bind {A B} (p : Prog A) (f : A -> Prog B) : Prog B :=
  match p with
  | Ret a => f a
  | Do c k => Do c (fun r => bind (k r) f)
  end.

Definition call (c : Call) : Prog (result c) := Do c Ret.

#[global] Instance Prog_ret : MRet Prog := @Ret.
#[global] Instance Prog_bind : MBind Prog := fun A B f p => bind p f.

(** One call of a run, with what the backend answered. *)
Inductive Event := Ev (c : Call) (r : result c).

Definition ev_call (e : Event) : Call := let 'Ev c _ := e in c.

(** A backend answers every call from its state. *)
Record Backend := {
  State : Type;
  handle : forall c : Call, State -> result c * State
}.

Fixpoint run (B : Backend) {A} (p : Prog A) (s : State B) : A * State B * list Event :=
  match p with
  | Ret a => (a, s, [])
  | Do c k =>
      let '(r, s1) := handle B c s in
      let '(a, s2, tr) := run B (k r) s1 in
      (a, s2, Ev c r :: tr)
  end.

Definition outcome {A S} (x : A * S * list Event) : A := x.1.1.
Definition final {A S} (x : A * S * list Event) : S := x.1.2.
Definition trace {A S} (x : A * S * list Event) : list Event := x.2.

(** Calls that change the backend, and among them the disk creation. *)
Definition isCreate (c : Call) : bool :=
  match c with CreateFirstClassDisk _ _ _ _ _ => true | _ => false end.

Definition isMutation (c : Call) : bool :=
  match c with
  | CreateFirstClassDisk _ _ _ _ _ | DeleteFirstClassDisk _ _ _ _
  | AttachDisk _ _ _ | DetachDisk _ _ => true
  | _ => false
  end.

Definition isZoneCall (c : Call) : bool :=
  match c with WhichVCandDCByZone _ _ _ _ => true | _ => false end.

Definition count (f : Call -> bool) (tr : list Event) : nat :=
  length (filter (fun e => f (ev_call e) = true) tr).

(** ** Requests and responses (the CSI messages, with the fields the
    controller reads or writes) *)

Record CapacityRange := {
  RequiredBytes : Z;
  LimitBytes : Z
}.

Record Topology := { Segments : gmap string string }.

(** The two lists are slices the controller tests against [nil]. *)
Record TopologyRequirement := {
  Requisite : option (list Topology);
  Preferred : option (list Topology)
}.

Record CreateVolumeRequest := {
  cv_Name : string;
  cv_CapacityRange : option CapacityRange;
  cv_Parameters : option (gmap string string);
  cv_AccessibilityRequirements : option TopologyRequirement
}.

Definition GetName := cv_Name.
Definition GetCapacityRange := cv_CapacityRange.
Definition GetParameters := cv_Parameters.
Definition GetAccessibilityRequirements := cv_AccessibilityRequirements.

Record Volume := {
  VolumeId : string;
  CapacityBytes : Z;
  VolumeContext : gmap string string
}.

Record CreateVolumeResponse := { cv_Volume : Volume }.

Record DeleteVolumeRequest := { dv_VolumeId : string }.
Record DeleteVolumeResponse := { }.

Record ControllerPublishVolumeRequest := {
  cp_VolumeId : string;
  cp_NodeId : string
}.
Record ControllerPublishVolumeResponse := { PublishContext : gmap string string }.

Record ControllerUnpublishVolumeRequest := {
  cu_VolumeId : string;
  cu_NodeId : string
}.
Record ControllerUnpublishVolumeResponse := { }.

Record ListVolumesRequest := {
  MaxEntries : Z;
  StartingToken : string
}.
Record ListVolumesResponse_Entry := { le_Volume : Volume }.
Record ListVolumesResponse := {
  Entries : list ListVolumesResponse_Entry;
  NextToken : string
}.

Record ValidateVolumeCapabilitiesRequest := { vc_VolumeId : string }.
Record ValidateVolumeCapabilitiesResponse := { }.
Record GetCapacityRequest := { gc_Parameters : gmap string string }.
Record GetCapacityResponse := { AvailableCapacity : Z }.
Record CreateSnapshotRequest := { cs_SourceVolumeId : string; cs_Name : string }.
Record CreateSnapshotResponse := { }.
Record DeleteSnapshotRequest := { ds_SnapshotId : string }.
Record DeleteSnapshotResponse := { }.
Record ListSnapshotsRequest := { ls_MaxEntries : Z; ls_StartingToken : string }.
Record ListSnapshotsResponse := { }.

(** The controller after [Init]: of its configuration the handlers read
    the zone and region labels. *)
Record controller := {
  cfg_Labels_Zone : string;
  cfg_Labels_Region : string
}.

(** ** The handlers *)

Section Controller.
Context `{K : PackageConsts}.

(** The attribute map of a disk, built the same way at lines 214-225
    ([CreateVolume]), 321-332 ([ControllerPublishVolume]) and 434-445
    ([ListVolumes]), in the order of the assignments. *)
Definition attributes (vcServer dcName : string) (firstClassDisk : FirstClassDiskInfo)
  : gmap string string :=
  let attributes : gmap string string := ∅ in
  let attributes := <[AttributeFirstClassDiskType := FirstClassDiskTypeString]> attributes in
  let attributes := <[AttributeFirstClassDiskVcenter := vcServer]> attributes in
  let attributes := <[AttributeFirstClassDiskDatacenter := dcName]> attributes in
  let attributes := <[AttributeFirstClassDiskName := Config_Name firstClassDisk]> attributes in
  let attributes :=
    <[AttributeFirstClassDiskParentType := ParentType firstClassDisk]> attributes in
  if String.eqb (ParentType firstClassDisk) TypeDatastoreCluster then
    let attributes :=
      <[AttributeFirstClassDiskParentName := StoragePodInfo_Summary_Name firstClassDisk]>
        attributes in
    <[AttributeFirstClassDiskOwningDatastore := DatastoreInfo_Info_Name firstClassDisk]>
      attributes
  else
    <[AttributeFirstClassDiskParentName := DatastoreInfo_Info_Name firstClassDisk]>
      attributes.

(** [&csi.Volume{...}] of lines 228-233 and 448-453. *)
Definition volumeOf (firstClassDisk : FirstClassDiskInfo) (attributes : gmap string string)
  : Volume :=
  {| VolumeId := Config_Id_Id firstClassDisk;
     CapacityBytes := wrap64 (Config_CapacityInMB firstClassDisk * MbInBytes);
     VolumeContext := attributes |}.

(** *** CreateVolume *)

(** Lines 125-130: the volume size in bytes and in megabytes. *)
Definition volSizeBytes (req : CreateVolumeRequest) : Z :=
  let volSizeBytes := wrap64 (DefaultGbDiskSize * GbInBytes) in
  match GetCapacityRange req with
  | Some capacityRange =>
      if negb (RequiredBytes capacityRange =? 0)
      then RequiredBytes capacityRange
      else volSizeBytes
  | None => volSizeBytes
  end.

Definition volSizeMB (req : CreateVolumeRequest) : Z :=
  wrap64 (RoundUpSize (volSizeBytes req) GbInBytes * 1024).

(** Lines 132-137: the datastore type named by the parameters. *)
Definition datastoreType (params : gmap string string) : string :=
  let datastoreType := TypeDatastoreCluster in
  let volType := mapIndex params AttributeFirstClassDiskParentType in
  if String.eqb volType TypeDatastore then TypeDatastore else datastoreType.

(** The call of lines 156, 168 and 177. *)
Definition zoneCall (c : controller) (zone region : string) : Call :=
  WhichVCandDCByZone (cfg_Labels_Zone c) (cfg_Labels_Region c) zone region.

Definition segmentCall (c : controller) (t : Topology) : Call :=
  let segments := Segments t in
  let reqRegion := mapIndex segments LabelZoneRegion in
  let reqZone := mapIndex segments LabelZoneFailureDomain in
  zoneCall c reqZone reqRegion.

(** The [for ... range] loops of lines 152-161 and 164-173, with the
    variables [discoveryInfo] and [err] they assign: the loop breaks at
    the first call that returns no error. *)
Fixpoint rangeTopologies (c : controller) (topologies : list Topology)
    (discoveryInfo : option ZoneDiscoveryInfo) (err : option error)
  : Prog (option ZoneDiscoveryInfo * option error) :=
  match topologies with
  | [] => mret (discoveryInfo, err)
  | t :: rest =>
      r ← call (segmentCall c t);
      match r with
      | inr discoveryInfo => mret (Some discoveryInfo, None)
      | inl err => rangeTopologies c rest None (Some err)
      end
  end.

(** Lines 144-178: the resolution of the vCenter and datacenter. *)
Definition CreateVolume_zone (c : controller) (accessibility : option TopologyRequirement)
    (zone region : string) : Prog (option ZoneDiscoveryInfo * option error) :=
  let legacy :=
    r ← call (zoneCall c zone region);
    match r with
    | inr discoveryInfo => mret (Some discoveryInfo, None)
    | inl err => mret (None, Some err)
    end in
  match accessibility with
  | Some accessibility =>
      if notNil (Requisite accessibility) || notNil (Preferred accessibility) then
        if notNil (Requisite accessibility)
        then rangeTopologies c (rangeOf (Requisite accessibility)) None None
        else rangeTopologies c (rangeOf (Preferred accessibility)) None None
      else legacy
  | None => legacy
  end.

(** Lines 214-236: the response for a disk. *)
Definition CreateVolume_response (discoveryInfo : ZoneDiscoveryInfo)
    (firstClassDisk : FirstClassDiskInfo) : CreateVolumeResponse :=
  let attributes :=
    attributes (VcServer discoveryInfo) (dc_Name (DataCenter discoveryInfo)) firstClassDisk in
  {| cv_Volume := volumeOf firstClassDisk attributes |}.

(** Lines 186-236: look the disk up by name, create it if the lookup
    fails, and answer. *)
Definition CreateVolume_disk (discoveryInfo : ZoneDiscoveryInfo)
    (datastoreName datastoreType volName : string) (volSizeMB : Z)
  : Prog (Outcome CreateVolumeResponse) :=
  let dc := DataCenter discoveryInfo in
  r ← call (GetFirstClassDisk dc datastoreName datastoreType volName FindFCDByName);
  match r with
  | inr firstClassDisk =>
      if negb (Config_CapacityInMB firstClassDisk =? volSizeMB)
      then mret (Err (status_Errorf AlreadyExists))
      else mret (Ok (CreateVolume_response discoveryInfo firstClassDisk))
  | inl _ =>
      err ← call (CreateFirstClassDisk dc datastoreName datastoreType volName volSizeMB);
      match err with
      | Some _ => mret (Err (status_Errorf Internal))
      | None =>
          r ← call (GetFirstClassDisk dc datastoreName datastoreType volName FindFCDByName);
          match r with
          | inl _ => mret (Err (status_Errorf Internal))
          | inr firstClassDisk =>
              mret (Ok (CreateVolume_response discoveryInfo firstClassDisk))
          end
      end
  end.

Definition CreateVolume (c : controller) (req : CreateVolumeRequest)
  : Prog (Outcome CreateVolumeResponse) :=
  let params := GetParameters req in
  let accessibility := GetAccessibilityRequirements req in
  let volName := GetName req in
  match params with
  | None => mret (Err (status_Errorf Internal))
  | Some params =>
      if len volName =? 0 then mret (Err (status_Errorf Internal))
      else if len (mapIndex params AttributeFirstClassDiskParentType) =? 0
      then mret (Err (status_Errorf Internal))
      else if len (mapIndex params AttributeFirstClassDiskParentName) =? 0
      then mret (Err (status_Errorf Internal))
      else
        let volSizeMB := volSizeMB req in
        let datastoreType := datastoreType params in
        let datastoreName := mapIndex params AttributeFirstClassDiskParentName in
        let zone := mapIndex params AttributeFirstClassDiskZone in
        let region := mapIndex params AttributeFirstClassDiskRegion in
        '(discoveryInfo, err) ← CreateVolume_zone c accessibility zone region;
        match err with
        | Some _ => mret (Err (status_Errorf Internal))
        | None =>
            match discoveryInfo with
            | None => mret Panics (* nil pointer dereference *)
            | Some discoveryInfo =>
                CreateVolume_disk discoveryInfo datastoreName datastoreType volName volSizeMB
            end
        end
  end.

(** *** DeleteVolume *)

Definition DeleteVolume (c : controller) (req : DeleteVolumeRequest)
  : Prog (Outcome DeleteVolumeResponse) :=
  if len (dv_VolumeId req) =? 0 then mret (Err (status_Errorf Internal))
  else
    r ← call (WhichVCandDCByFCDId (dv_VolumeId req));
    match r with
    | inl ErrNoDiskIDFound => mret (Ok Build_DeleteVolumeResponse)
    | inl _ => mret (Err (status_Errorf Internal))
    | inr discoveryInfo =>
        let datastoreType := ParentType (FCDInfo discoveryInfo) in
        let datastoreName :=
          if String.eqb datastoreType TypeDatastore
          then DatastoreInfo_Info_Name (FCDInfo discoveryInfo)
          else StoragePodInfo_Summary_Name (FCDInfo discoveryInfo) in
        err ← call (DeleteFirstClassDisk (fdi_DataCenter discoveryInfo) datastoreName
                      datastoreType (dv_VolumeId req));
        match err with
        | Some _ => mret (Err (status_Errorf Internal))
        | None => mret (Ok Build_DeleteVolumeResponse)
        end
    end.

(** *** ControllerPublishVolume and ControllerUnpublishVolume *)

(** [Backing.( *types.BaseConfigInfoDiskFileBackingInfo).FilePath]: the
    type assertion panics ([None]) on another variant. *)
Definition filePathOf (fcd : FirstClassDiskInfo) : option string :=
  match Config_Backing fcd with
  | BaseConfigInfoDiskFileBackingInfo filePath => Some filePath
  | _ => None
  end.

Definition ControllerPublishVolume (c : controller) (req : ControllerPublishVolumeRequest)
  : Prog (Outcome ControllerPublishVolumeResponse) :=
  if len (cp_VolumeId req) =? 0 then mret (Err (status_Errorf Internal))
  else if len (cp_NodeId req) =? 0 then mret (Err (status_Errorf Internal))
  else
    r ← call (WhichVCandDCByFCDId (cp_VolumeId req));
    match r with
    | inl _ => mret (Err (status_Errorf Internal))
    | inr discoveryInfo =>
        let fcd := FCDInfo discoveryInfo in
        r ← call (GetVMByDNSName (fdi_DataCenter discoveryInfo) (cp_NodeId req));
        match r with
        | inl err => mret (Err err)
        | inr vm =>
            match filePathOf fcd with
            | None => mret Panics
            | Some filePath =>
                let options := {| SCSIControllerType := PVSCSIControllerType |} in
                r ← call (AttachDisk vm filePath options);
                match r with
                | inl err => mret (Err err)
                | inr diskUUID =>
                    let publishInfo :=
                      attributes (fdi_VcServer discoveryInfo)
                        (dc_Name (fdi_DataCenter discoveryInfo)) fcd in
                    let publishInfo :=
                      <[AttributeFirstClassDiskPage83Data := diskUUID]> publishInfo in
                    mret (Ok {| PublishContext := publishInfo |})
                end
            end
        end
    end.

Definition ControllerUnpublishVolume (c : controller)
    (req : ControllerUnpublishVolumeRequest)
  : Prog (Outcome ControllerUnpublishVolumeResponse) :=
  if len (cu_VolumeId req) =? 0 then mret (Err (status_Errorf Internal))
  else if len (cu_NodeId req) =? 0 then mret (Err (status_Errorf Internal))
  else
    r ← call (WhichVCandDCByFCDId (cu_VolumeId req));
    match r with
    | inl _ => mret (Err (status_Errorf Internal))
    | inr discoveryInfo =>
        let fcd := FCDInfo discoveryInfo in
        r ← call (GetVMByDNSName (fdi_DataCenter discoveryInfo) (cu_NodeId req));
        match r with
        | inl err => mret (Err err)
        | inr vm =>
            match filePathOf fcd with
            | None => mret Panics
            | Some filePath =>
                err ← call (DetachDisk vm filePath);
                match err with
                | Some err => mret (Err err)
                | None => mret (Ok Build_ControllerUnpublishVolumeResponse)
                end
            end
        end
    end.

(** *** ListVolumes *)

(** The body of the loop of lines 433-455. *)
Definition entryOf (firstClassDisk : FirstClassDiskInfo) : ListVolumesResponse_Entry :=
  let attributes :=
    attributes (removePortFromHost (dc_Host (fcd_Datacenter firstClassDisk)))
      (dc_Name (fcd_Datacenter firstClassDisk)) firstClassDisk in
  {| le_Volume := volumeOf firstClassDisk attributes |}.

(** Lines 403-411: the start offset, or [None] when [Atoi] fails. *)
Definition startOf (startingToken : string) : option Z :=
  if String.eqb startingToken EmptyString then Some 0 else Atoi startingToken.

(** Lines 413-416. *)
Definition stopOf (start maxEntries total : Z) : Z :=
  let stop := total in
  if negb (maxEntries =? 0) && (stop >? maxEntries)
  then wrap64 (start + maxEntries - 1)
  else stop.

Definition ListVolumes (c : controller) (req : ListVolumesRequest)
  : Prog (Outcome ListVolumesResponse) :=
  firstClassDisks ← call getAllFCDs;
  let total := Z.of_nat (length firstClassDisks) in
  match startOf (StartingToken req) with
  | None => mret (Err (status_Errorf Internal))
  | Some start =>
      let stop := stopOf start (MaxEntries req) total in
      if start >? total then mret (Err (status_Errorf Internal))
      else
        let subsetFirstClassDisks :=
          if stop >=? total
          then slice firstClassDisks start total
          else slice firstClassDisks start (wrap64 (stop + 1)) in
        match subsetFirstClassDisks with
        | None => mret Panics (* slice bounds out of range *)
        | Some subsetFirstClassDisks =>
            let entries := map entryOf subsetFirstClassDisks in
            let nextToken :=
              if stop <? total then Itoa (wrap64 (stop + 1)) else EmptyString in
            mret (Ok {| Entries := entries; NextToken := nextToken |})
        end
  end.

(** *** The stubs *)

Definition ValidateVolumeCapabilities (c : controller)
    (req : ValidateVolumeCapabilitiesRequest)
  : Prog (Outcome ValidateVolumeCapabilitiesResponse) :=
  mret (Ok Build_ValidateVolumeCapabilitiesResponse).

Definition GetCapacity (c : controller) (req : GetCapacityRequest)
  : Prog (Outcome GetCapacityResponse) :=
  mret (Returns None None).

Definition CreateSnapshot (c : controller) (req : CreateSnapshotRequest)
  : Prog (Outcome CreateSnapshotResponse) :=
  mret (Returns None None).

Definition DeleteSnapshot (c : controller) (req : DeleteSnapshotRequest)
  : Prog (Outcome DeleteSnapshotResponse) :=
  mret (Returns None None).

Definition ListSnapshots (c : controller) (req : ListSnapshotsRequest)
  : Prog (Outcome ListSnapshotsResponse) :=
  mret (Returns None None).

End Controller.

(** ** Vocabulary of the statements *)

Section Vocabulary.
Context `{K : PackageConsts}.

(** A request that passes the checks of lines 107-123. *)
Definition validCreate (req : CreateVolumeRequest) (params : gmap string string) : Prop :=
  GetParameters req = Some params /\
  GetName req <> EmptyString /\
  mapIndex params AttributeFirstClassDiskParentType <> EmptyString /\
  mapIndex params AttributeFirstClassDiskParentName <> EmptyString.

(** A request that fails one of them. *)
Definition invalidCreate (req : CreateVolumeRequest) : Prop :=
  GetParameters req = None \/
  GetName req = EmptyString \/
  exists params, GetParameters req = Some params /\
    (mapIndex params AttributeFirstClassDiskParentType = EmptyString \/
     mapIndex params AttributeFirstClassDiskParentName = EmptyString).

(** The entries [start .. stop] of a list, as far as they exist. *)
Definition pageOf {A} (l : list A) (start stop : Z) : list A :=
  take (Z.to_nat (stop + 1 - start)) (drop (Z.to_nat start) l).

(** The rule as the specification words it: [stop = total] when
    [maxEntries] is zero or the remaining set is smaller than
    [maxEntries], else [stop = start + maxEntries - 1]; the next token is
    [stop + 1] when [stop < total] and absent (empty) otherwise. *)
Definition spec_stopOf (start maxEntries total : Z) : Z :=
  if (maxEntries =? 0) || (total - start <? maxEntries)
  then total
  else start + maxEntries - 1.

Definition spec_nextToken (start maxEntries total : Z) : string :=
  let stop := spec_stopOf start maxEntries total in
  if stop <? total then Itoa (stop + 1) else EmptyString.

(** [hasTopology a]: the requirement carries a list that is not nil, the
    test of line 147. *)
Definition hasTopology (accessibility : TopologyRequirement) : bool :=
  notNil (Requisite accessibility) || notNil (Preferred accessibility).

(** The segments the zone resolution ranges over: those of the requisite
    list when that list is not nil, otherwise those of the preferred
    list. *)
Definition candidates (accessibility : TopologyRequirement) : list Topology :=
  if notNil (Requisite accessibility)
  then rangeOf (Requisite accessibility)
  else rangeOf (Preferred accessibility).

(** [rangesOverNothing accessibility]: there is a requirement with a
    list that is not nil, and the list the resolution ranges over has no
    segment. *)
Definition rangesOverNothing (accessibility : option TopologyRequirement) : bool :=
  match accessibility with
  | Some a => hasTopology a && match candidates a with [] => true | _ => false end
  | None => false
  end.

(** [ZonesFail B c segs s s' tr]: from state [s] the backend fails to
    resolve each segment of [segs] in turn, which leaves it in state
    [s'] after the calls [tr]. *)
Inductive ZonesFail (B : Backend) (c : controller)
  : list Topology -> State B -> State B -> list Event -> Prop :=
| ZonesFail_nil s : ZonesFail B c [] s s []
| ZonesFail_cons t rest e s s1 s2 tr :
    handle B (segmentCall c t) s = (inl e, s1) ->
    ZonesFail B c rest s1 s2 tr ->
    ZonesFail B c (t :: rest) s s2 (Ev (segmentCall c t) (inl e) :: tr).

(** The keys every attribute map has to carry, and all the keys the
    controller writes. *)
Definition requiredKeys : list string :=
  [AttributeFirstClassDiskType; AttributeFirstClassDiskVcenter;
   AttributeFirstClassDiskDatacenter; AttributeFirstClassDiskName;
   AttributeFirstClassDiskParentType; AttributeFirstClassDiskParentName].

Definition attributeKeys : list string :=
  requiredKeys ++
  [AttributeFirstClassDiskOwningDatastore; AttributeFirstClassDiskPage83Data].

(** [describes m fcd]: the attribute map [m] carries the required keys,
    records the parent type of the disk [fcd], and carries the
    owning-datastore key exactly when that parent type is the datastore
    cluster. *)
Definition describes (m : gmap string string) (fcd : FirstClassDiskInfo) : Prop :=
  Forall (fun k => is_Some (m !! k)) requiredKeys /\
  m !! AttributeFirstClassDiskParentType = Some (ParentType fcd) /\
  (is_Some (m !! AttributeFirstClassDiskOwningDatastore) <->
   ParentType fcd = TypeDatastoreCluster).

(** The disks an answer of the backend reports: the disk of a lookup by
    [GetFirstClassDisk] or [WhichVCandDCByFCDId] that succeeded, the
    disks of a listing; [reported tr] collects them in the order of the
    calls of the trace [tr]. *)
Definition disksOf (ev : Event) : list FirstClassDiskInfo :=
  match ev with
  | Ev c r =>
      match c return result c -> list FirstClassDiskInfo with
      | GetFirstClassDisk _ _ _ _ _ =>
          fun r => match r with inr d => [d] | inl _ => [] end
      | WhichVCandDCByFCDId _ =>
          fun r => match r with inr discoveryInfo => [FCDInfo discoveryInfo] | inl _ => [] end
      | getAllFCDs => fun disks => disks
      | _ => fun _ => []
      end r
  end.

Definition reported (tr : list Event) : list FirstClassDiskInfo :=
  flat_map disksOf tr.

(** [entryDescribes e fcd]: the entry [e] of a listing carries the id of
    the disk [fcd] and an attribute map that describes it. *)
Definition entryDescribes (e : ListVolumesResponse_Entry) (fcd : FirstClassDiskInfo)
  : Prop :=
  VolumeId (le_Volume e) = Config_Id_Id fcd /\
  describes (VolumeContext (le_Volume e)) fcd.

(** [Leaves P p]: whatever the backend answers, the handler [p] ends in a
    value that satisfies [P]. *)
Fixpoint Leaves {A} (P : A -> Prop) (p : Prog A) : Prop :=
  match p with
  | Ret a => P a
  | Do c k => forall r, Leaves P (k r)
  end.

(** [Traced P p]: whatever the backend answers, the handler [p] ends
    after calls [tr] in a value [a] such that [P tr a]. *)
Fixpoint Traced {A} (P : list Event -> A -> Prop) (p : Prog A) : Prop :=
  match p with
  | Ret a => P [] a
  | Do c k => forall r, Traced (fun tr => P (Ev c r :: tr)) (k r)
  end.

(** Calls that delete a disk, attach one to a node, or detach one. *)
Definition isDelete (c : Call) : bool :=
  match c with DeleteFirstClassDisk _ _ _ _ => true | _ => false end.

Definition isAttach (c : Call) : bool :=
  match c with AttachDisk _ _ _ => true | _ => false end.

Definition isDetach (c : Call) : bool :=
  match c with DetachDisk _ _ => true | _ => false end.

(** [Bounded f n p]: whatever the backend answers, the handler [p]
    issues at most [n] calls that satisfy [f]. *)
Fixpoint Bounded {A} (f : Call -> bool) (n : nat) (p : Prog A) : Prop :=
  match p with
  | Ret _ => True
  | Do c k =>
      if f c
      then match n with
           | O => False
           | S m => forall r, Bounded f m (k r)
           end
      else forall r, Bounded f n (k r)
  end.

(** [classified codes o]: the outcome [o] is a response, or an error
    built by [status.Errorf] with one of the [codes]: no panic, and no
    bare error of a collaborator. *)
Definition classified {A} (codes : list Code) (o : Outcome A) : Prop :=
  (exists resp, o = Ok resp) \/
  (exists code, In code codes /\ o = Err (status_Errorf code)).

(** A caller that lists every volume: it calls [ListVolumes] with the
    next token of the previous page, starting from [token], until a page
    carries no next token, and appends the pages; [None] when a call
    fails or [fuel] calls do not suffice. *)
Fixpoint listAll (B : Backend) (c : controller) (maxEntries : Z) (fuel : nat)
    (token : string) (s : State B) : option (list ListVolumesResponse_Entry) :=
  match fuel with
  | O => None
  | S fuel =>
      let '(o, s1, _) :=
        run B (ListVolumes c {| MaxEntries := maxEntries; StartingToken := token |}) s in
      match o with
      | Returns (Some resp) None =>
          if String.eqb (NextToken resp) EmptyString
          then Some (Entries resp)
          else option_map (app (Entries resp))
                 (listAll B c maxEntries fuel (NextToken resp) s1)
      | _ => None
      end
  end.

End Vocabulary.

(** ** A sample deployment

    One instance of the package constants and a small in-memory backend
    (one vCenter, one datacenter, a list of disks), on which the
    theorems below are instantiated. *)
Module Fixture.

#[export] Instance consts : PackageConsts := {|
  AttributeFirstClassDiskType := "type";
  AttributeFirstClassDiskName := "name";
  AttributeFirstClassDiskParentType := "parent_type";
  AttributeFirstClassDiskParentName := "parent_name";
  AttributeFirstClassDiskOwningDatastore := "owning_datastore";
  AttributeFirstClassDiskVcenter := "vcenter";
  AttributeFirstClassDiskDatacenter := "datacenter";
  AttributeFirstClassDiskPage83Data := "page83data";
  AttributeFirstClassDiskZone := "zone";
  AttributeFirstClassDiskRegion := "region";
  FirstClassDiskTypeString := "First Class Disk";
  LabelZoneRegion := "failure-domain.beta.kubernetes.io/region";
  LabelZoneFailureDomain := "failure-domain.beta.kubernetes.io/zone";
  TypeDatastore := "Datastore";
  TypeDatastoreCluster := "DatastoreCluster";
  PVSCSIControllerType := "pvscsi";
  removePortFromHost := fun host => host
|}.

Definition ctl : controller :=
  {| cfg_Labels_Zone := "k8s-zone"; cfg_Labels_Region := "k8s-region" |}.

Definition dc0 : Datacenter := {| dc_Name := "dc0"; dc_Host := "vc0" |}.

Definition found (findBy : FindFCD) (key : string) (d : FirstClassDiskInfo) : bool :=
  match findBy with
  | FindFCDByID => String.eqb (Config_Id_Id d) key
  | FindFCDByName => String.eqb (Config_Name d) key
  end.

Definition newDisk (datastoreName datastoreType diskName : string) (diskSize : Z)
  : FirstClassDiskInfo :=
  {| fcd_Datacenter := dc0;
     Config_Id_Id := String.append "fcd-" diskName;
     Config_Name := diskName;
     Config_CapacityInMB := diskSize;
     Config_Backing :=
       BaseConfigInfoDiskFileBackingInfo (String.append diskName ".vmdk");
     ParentType := datastoreType;
     DatastoreInfo_Info_Name :=
       if String.eqb datastoreType "Datastore" then datastoreName else "ds1";
     StoragePodInfo_Summary_Name :=
       if String.eqb datastoreType "Datastore" then "" else datastoreName |}.

(** The backend resolves only the zone [zoneB] of region [regionY]. *)
Definition answer (c : Call) (disks : list FirstClassDiskInfo)
  : result c * list FirstClassDiskInfo :=
  match c return result c * list FirstClassDiskInfo with
  | WhichVCandDCByZone _ _ zone region =>
      (if String.eqb zone "zoneB" && String.eqb region "regionY"
       then inr {| VcServer := "vc0"; DataCenter := dc0 |}
       else inl (errors_New "no matching zone"), disks)
  | WhichVCandDCByFCDId fcdID =>
      (match List.find (found FindFCDByID fcdID) disks with
       | Some d => inr {| fdi_VcServer := "vc0"; fdi_DataCenter := dc0; FCDInfo := d |}
       | None => inl ErrNoDiskIDFound
       end, disks)
  | GetFirstClassDisk _ _ _ diskID findBy =>
      (match List.find (found findBy diskID) disks with
       | Some d => inr d
       | None => inl (errors_New "no disk found")
       end, disks)
  | CreateFirstClassDisk _ datastoreName datastoreType diskName diskSize =>
      (None, disks ++ [newDisk datastoreName datastoreType diskName diskSize])
  | DeleteFirstClassDisk _ _ _ diskID =>
      (None, List.filter (fun d => negb (found FindFCDByID diskID d)) disks)
  | GetVMByDNSName _ nodeName => (inr {| vm_Name := nodeName |}, disks)
  | AttachDisk _ vmDiskPath _ => (inr (String.append "uuid-" vmDiskPath), disks)
  | DetachDisk _ _ => (None, disks)
  | getAllFCDs => (disks, disks)
  end.

Definition backend : Backend :=
  {| State := list FirstClassDiskInfo; handle := answer |}.

Definition segment (zone region : string) : Topology :=
  {| Segments :=
       <[LabelZoneFailureDomain := zone]> (<[LabelZoneRegion := region]> ∅) |}.

Definition createParams (parentType : string) : gmap string string :=
  <[AttributeFirstClassDiskParentType := parentType]>
    (<[AttributeFirstClassDiskParentName := "pool1"]>
      (<[AttributeFirstClassDiskZone := "zoneB"]>
        (<[AttributeFirstClassDiskRegion := "regionY"]> ∅))).

Definition createReq (name parentType : string) (bytes : Z)
    (topology : option TopologyRequirement) : CreateVolumeRequest :=
  {| cv_Name := name;
     cv_CapacityRange := Some {| RequiredBytes := bytes; LimitBytes := 0 |};
     cv_Parameters := Some (createParams parentType);
     cv_AccessibilityRequirements := topology |}.

(** What the backend resolves every matching zone to. *)
Definition di0 : ZoneDiscoveryInfo := {| VcServer := "vc0"; DataCenter := dc0 |}.

Definition listReq (token : string) (maxEntries : Z) : ListVolumesRequest :=
  {| MaxEntries := maxEntries; StartingToken := token |}.

(** Ten disks, named [d0] to [d9]. *)
Definition tenDisks : list FirstClassDiskInfo :=
  map (fun n => newDisk "pool1" "Datastore" (String.append "d" (Itoa n)) 1024)
    [0; 1; 2; 3; 4; 5; 6; 7; 8; 9].

End Fixture.


(** ** Start-up

    [Init] talks to other collaborators than the request handlers: the
    Kubernetes client and informer of package [k8s] and the constructor
    of the connection manager.  It has its own calls and runs against
    its own kind of backend. *)
Module Startup.

(** [*vcfg.Config], with the fields [Init] and the handlers read. *)
Record Config := {
  Global_ServiceAccount : string;
  Labels_Zone : string;
  Labels_Region : string
}.

(** The calls of [Init].  [NewConnectionManager] answers with the keys of
    [connMgr.VsphereInstanceMap] in the order in which the [range] loop
    of this run visits them (Go leaves that order open). *)
Inductive Call :=
| NewClient (serviceAccount : string)
| NewInformer
| GetSecretListener
| NewConnectionManager (config : Config)
| Listen
| APIVersion (vc : string).

Definition result (c : Call) : Type :=
  match c with
  | NewClient _ => option error
  | NewInformer => unit
  | GetSecretListener => unit
  | NewConnectionManager _ => list string
  | Listen => unit
  | APIVersion _ => error + string
  end%type.

Inductive Prog (A : Type) : Type :=
| Ret (a : A)
| Do (c : Call) (k : result c -> Prog A).
Arguments Ret {A} a.
Arguments Do {A} c k.

Inductive Event := Ev (c : Call) (r : result c).

Record Backend := {
  State : Type;
  handle : forall c : Call, State -> result c * State
}.

Fixpoint run (B : Backend) {A} (p : Prog A) (s : State B) : A * State B * list Event :=
  match p with
  | Ret a => (a, s, [])
  | Do c k =>
      let '(r, s1) := handle B c s in
      let '(a, s2, tr) := run B (k r) s1 in
      (a, s2, Ev c r :: tr)
  end.

Fixpoint bind {A C} (p : Prog A) (f : A -> Prog C) : Prog C :=
  match p with
  | Ret a => f a
  | Do c k => Do c (fun r => bind (k r) f)
  end.

Section Init.
(** [checkAPI] is a function of the package, outside [controller.go]: it
    accepts an API version ([None]) or rejects it with an error. *)
Variable checkAPI : string -> option error.

(** The loop of lines 76-87: it returns at the first vCenter whose version
    cannot be read or is rejected. *)
Fixpoint rangeVsphereInstanceMap (vcs : list string) : Prog (option error) :=
  match vcs with
  | [] => Ret None
  | vc :: rest =>
      Do (APIVersion vc) (fun r =>
        match r with
        | inl err => Ret (Some err)
        | inr api =>
            match checkAPI api with
            | Some err => Ret (Some err)
            | None => rangeVsphereInstanceMap rest
            end
        end)
  end.

(** [Init] returns its error, and the controller as it leaves it: [None]
    while the fields are not assigned, else the controller of the
    configuration.  The error of line 63 is a new one, made by
    [fmt.Errorf]. *)
Definition Init (config : Config) : Prog (option controller * option error) :=
  Do (NewClient (Global_ServiceAccount config)) (fun err =>
    match err with
    | Some _ => Ret (None, Some (errors_New "Creating Kubernetes client failed."))
    | None =>
        Do NewInformer (fun informMgr =>
        Do GetSecretListener (fun listener =>
        Do (NewConnectionManager config) (fun VsphereInstanceMap =>
        Do Listen (fun _ =>
          let c := {| cfg_Labels_Zone := Labels_Zone config;
                      cfg_Labels_Region := Labels_Region config |} in
          bind (rangeVsphereInstanceMap VsphereInstanceMap)
            (fun err => Ret (Some c, err))))))
    end).

(** [VersionsPass B vcs s s' tr]: from state [s] the backend reports for
    each vCenter of [vcs] in turn a version that [checkAPI] accepts. *)
Inductive VersionsPass (B : Backend) : list string -> State B -> State B -> list Event -> Prop :=
| VersionsPass_nil s : VersionsPass B [] s s []
| VersionsPass_cons vc rest api s s1 s2 tr :
    handle B (APIVersion vc) s = (inr api, s1) ->
    checkAPI api = None ->
    VersionsPass B rest s1 s2 tr ->
    VersionsPass B (vc :: rest) s s2 (Ev (APIVersion vc) (inr api) :: tr).

End Init.
End Startup.

(** A sample start-up: three vCenters, the second of which reports a
    version that the sample [checkAPI] rejects. *)
Module StartupFixture.

Definition checkAPI (api : string) : option error :=
  if String.eqb api "6.5" || String.eqb api "6.7"
  then None
  else Some (errors_New "unsupported API version").

Definition answer (c : Startup.Call) (s : unit) : Startup.result c * unit :=
  match c return Startup.result c * unit with
  | Startup.NewClient _ => (None, tt)
  | Startup.NewInformer => (tt, tt)
  | Startup.GetSecretListener => (tt, tt)
  | Startup.NewConnectionManager _ => (["vc-a"; "vc-b"; "vc-c"]%string, tt)
  | Startup.Listen => (tt, tt)
  | Startup.APIVersion vc =>
      (if String.eqb vc "vc-b" then inr "6.0"%string else inr "6.7"%string, tt)
  end.

Definition backend : Startup.Backend :=
  {| Startup.State := unit; Startup.handle := answer |}.

Definition config : Startup.Config :=
  {| Startup.Global_ServiceAccount := "cloud-controller-manager";
     Startup.Labels_Zone := "k8s-zone";
     Startup.Labels_Region := "k8s-region" |}.

End StartupFixture.

(** * Properties *)

(** ** Running a handler *)

Lemma run_bind (B : Backend) {A C} (p : Prog A) (f : A -> Prog C) (s : State B) :
  run B (p ≫= f) s =
  let '(a, s1, t1) := run B p s in
  let '(b, s2, t2) := run B (f a) s1 in
  (b, s2, t1 ++ t2).
Proof.
  unfold mbind, Prog_bind. revert s.
  induction p as [a | c k IH]; intros s; simpl.
  - destruct (run B (f a) s) as [[b s2] t2]. reflexivity.
  - destruct (handle B c s) as [r s1]. rewrite IH.
    destruct (run B (k r) s1) as [[a s2] t1].
    destruct (run B (f a) s2) as [[b s3] t2]. reflexivity.
Qed.

(** ** Go values *)

Lemma len_zero (s : string) : (len s =? 0) = true <-> s = EmptyString.
Proof.
  unfold len. destruct s as [| ch s].
  - split; reflexivity.
  - split; intros H; [| discriminate H].
    apply Z.eqb_eq in H. cbn [String.length] in H. lia.
Qed.

Lemma len_nonzero (s : string) : s <> EmptyString -> (len s =? 0) = false.
Proof.
  intros Hs. destruct (len s =? 0) eqn:E; [| reflexivity].
  apply len_zero in E. contradiction.
Qed.

Lemma wrap64_small (z : Z) : minInt64 <= z <= maxInt64 -> wrap64 z = z.
Proof.
  unfold wrap64, minInt64, maxInt64. intros Hz.
  rewrite Z.mod_small; lia.
Qed.

(** [Atoi] and [Itoa] on a few strings. *)
Example Atoi_samples :
  Atoi "3" = Some 3 /\ Atoi "+7" = Some 7 /\ Atoi "-1" = Some (-1) /\
  Atoi "007" = Some 7 /\ Atoi "" = None /\ Atoi "-" = None /\
  Atoi "abc" = None /\ Atoi "3 " = None /\
  Atoi "9223372036854775807" = Some maxInt64 /\
  Atoi "9223372036854775808" = None.
Proof. repeat split. Qed.

Example Itoa_samples :
  Itoa 0 = "0"%string /\ Itoa 10 = "10"%string /\ Itoa (-4) = "-4"%string.
Proof. repeat split. Qed.

(** ** Capacity arithmetic *)

Lemma RoundUpSize_pos (b u : Z) :
  0 < b <= maxInt64 -> 0 < u ->
  let n := RoundUpSize b u in (n - 1) * u < b <= n * u /\ 0 < n <= b.
Proof.
  intros Hb Hu. unfold RoundUpSize.
  rewrite Z.quot_div_nonneg, Z.rem_mod_nonneg by lia.
  pose proof (Z.div_mod b u ltac:(lia)) as Hdm.
  pose proof (Z.mod_pos_bound b u Hu) as Hm.
  assert (0 <= b / u <= b) as Hq.
  { split; [apply Z.div_pos; lia |]. apply Z.div_le_upper_bound; nia. }
  destruct (b mod u >? 0) eqn:E.
  - apply Z.gtb_lt in E.
    assert (b / u < b) by nia.
    rewrite wrap64_small by (unfold minInt64, maxInt64 in *; lia). nia.
  - assert (b mod u = 0) as Hz by (rewrite Z.gtb_ltb in E; apply Z.ltb_ge in E; lia).
    assert (0 < b / u) by nia. nia.
Qed.

(** C5. With no capacity range, or a required size of zero bytes, the
    volume size is the 10 GiB default (10240 MB); with a required size of
    [b > 0] bytes it is [n * 1024] MB for the least [n] whose [n] GiB
    hold [b] bytes; in particular 1 byte gives 1024 MB. *)
Theorem CreateVolume_capacity_arithmetic (req : CreateVolumeRequest) :
  (GetCapacityRange req = None -> volSizeMB req = 10 * 1024) /\
  (forall cr, GetCapacityRange req = Some cr -> RequiredBytes cr = 0 ->
     volSizeMB req = 10 * 1024) /\
  (forall cr, GetCapacityRange req = Some cr -> 0 < RequiredBytes cr <= maxInt64 ->
     exists n, volSizeMB req = n * 1024 /\
       (n - 1) * GbInBytes < RequiredBytes cr <= n * GbInBytes) /\
  (forall cr, GetCapacityRange req = Some cr -> RequiredBytes cr = 1 ->
     volSizeMB req = 1024).
Proof.
  unfold volSizeMB, volSizeBytes. repeat split.
  - intros ->. reflexivity.
  - intros cr -> ->. reflexivity.
  - intros cr -> Hb.
    assert ((RequiredBytes cr =? 0) = false) as -> by (apply Z.eqb_neq; lia).
    simpl negb. cbv iota.
    destruct (RoundUpSize_pos (RequiredBytes cr) GbInBytes Hb ltac:(reflexivity))
      as [Hn Hr].
    exists (RoundUpSize (RequiredBytes cr) GbInBytes). split; [| exact Hn].
    apply wrap64_small.
    assert (RequiredBytes cr <= RoundUpSize (RequiredBytes cr) GbInBytes * GbInBytes)
      as Hle by lia.
    pose proof (proj1 Hn) as Hlt.
    unfold minInt64, maxInt64, GbInBytes in *. lia.
  - intros cr -> ->. reflexivity.
Qed.

(** ** The stubs *)

(** C8, as the code has it.  [ValidateVolumeCapabilities] returns an empty
    response and no error; [GetCapacity], [CreateSnapshot],
    [DeleteSnapshot] and [ListSnapshots] return a nil response together
    with a nil error (no "unimplemented" status); none of the five calls
    a collaborator, so the backend state is the one they started from. *)
Theorem stubs_return_without_effect (B : Backend) (c : controller) (s : State B) :
  (forall req, run B (ValidateVolumeCapabilities c req) s =
     (Ok Build_ValidateVolumeCapabilitiesResponse, s, [])) /\
  (forall req, run B (GetCapacity c req) s = (Returns None None, s, [])) /\
  (forall req, run B (CreateSnapshot c req) s = (Returns None None, s, [])) /\
  (forall req, run B (DeleteSnapshot c req) s = (Returns None None, s, [])) /\
  (forall req, run B (ListSnapshots c req) s = (Returns None None, s, [])).
Proof. repeat split. Qed.

(** ** Validation *)

Section Validation.
Context `{K : PackageConsts}.

Lemma CreateVolume_valid (c : controller) req params :
  validCreate req params ->
  CreateVolume c req =
    '(discoveryInfo, err) ←
       CreateVolume_zone c (GetAccessibilityRequirements req)
         (mapIndex params AttributeFirstClassDiskZone)
         (mapIndex params AttributeFirstClassDiskRegion);
    match err with
    | Some _ => mret (Err (status_Errorf Internal))
    | None =>
        match discoveryInfo with
        | None => mret Panics
        | Some discoveryInfo =>
            CreateVolume_disk discoveryInfo
              (mapIndex params AttributeFirstClassDiskParentName)
              (datastoreType params) (GetName req) (volSizeMB req)
        end
    end.
Proof.
  intros (Hp & Hn & Ht & Hd). unfold CreateVolume. rewrite Hp.
  rewrite !len_nonzero by assumption. reflexivity.
Qed.

(** C2, as the code has it.  Every validation failure carries the code
    [Internal]: [CreateVolume] with nil parameters, an empty name or a
    missing parent type or parent name, and [DeleteVolume],
    [ControllerPublishVolume] and [ControllerUnpublishVolume] with an
    empty volume id or node id, return it without calling a
    collaborator; [ListVolumes] returns it for a token [Atoi] rejects. *)
Theorem validation_failures_are_internal (c : controller) :
  (forall req, invalidCreate req ->
     CreateVolume c req = Ret (Err (status_Errorf Internal))) /\
  (forall req, dv_VolumeId req = EmptyString ->
     DeleteVolume c req = Ret (Err (status_Errorf Internal))) /\
  (forall req, cp_VolumeId req = EmptyString \/ cp_NodeId req = EmptyString ->
     ControllerPublishVolume c req = Ret (Err (status_Errorf Internal))) /\
  (forall req, cu_VolumeId req = EmptyString \/ cu_NodeId req = EmptyString ->
     ControllerUnpublishVolume c req = Ret (Err (status_Errorf Internal))) /\
  (forall (B : Backend) (s : State B) req,
     StartingToken req <> EmptyString -> Atoi (StartingToken req) = None ->
     outcome (run B (ListVolumes c req) s) = Err (status_Errorf Internal)).
Proof.
  repeat split.
  - intros req [Hp | [Hn | (params & Hp & [Ht | Hd])]]; unfold CreateVolume.
    + rewrite Hp. reflexivity.
    + destruct (GetParameters req); [| reflexivity].
      rewrite (proj2 (len_zero _) Hn). reflexivity.
    + rewrite Hp. destruct (len (GetName req) =? 0); [reflexivity |].
      rewrite (proj2 (len_zero _) Ht). reflexivity.
    + rewrite Hp. destruct (len (GetName req) =? 0); [reflexivity |].
      destruct (len (mapIndex params AttributeFirstClassDiskParentType) =? 0);
        [reflexivity |].
      rewrite (proj2 (len_zero _) Hd). reflexivity.
  - intros req Hv. unfold DeleteVolume. rewrite (proj2 (len_zero _) Hv). reflexivity.
  - intros req [Hv | Hn]; unfold ControllerPublishVolume.
    + rewrite (proj2 (len_zero _) Hv). reflexivity.
    + destruct (len (cp_VolumeId req) =? 0); [reflexivity |].
      rewrite (proj2 (len_zero _) Hn). reflexivity.
  - intros req [Hv | Hn]; unfold ControllerUnpublishVolume.
    + rewrite (proj2 (len_zero _) Hv). reflexivity.
    + destruct (len (cu_VolumeId req) =? 0); [reflexivity |].
      rewrite (proj2 (len_zero _) Hn). reflexivity.
  - intros B s req Htok Hatoi. unfold ListVolumes, outcome.
    cbn [mbind Prog_bind bind call run].
    destruct (handle B getAllFCDs s) as [disks s1].
    unfold startOf. rewrite (proj2 (String.eqb_neq _ _) Htok), Hatoi.
    reflexivity.
Qed.

End Validation.

(** ** Resolution of a volume id *)

Section Resolution.
Context `{K : PackageConsts}.

(** C4. When the resolution of a volume id yields [ErrNoDiskIDFound],
    [DeleteVolume] returns an empty response and no error, and
    [ControllerPublishVolume] returns an [Internal] error; in both cases
    the resolution is the only call issued (no delete, no attach). *)
Theorem unresolved_id_delete_succeeds_publish_fails
    (B : Backend) (c : controller) (volumeId nodeId : string) (s s1 : State B) :
  volumeId <> EmptyString -> nodeId <> EmptyString ->
  handle B (WhichVCandDCByFCDId volumeId) s = (inl ErrNoDiskIDFound, s1) ->
  run B (DeleteVolume c {| dv_VolumeId := volumeId |}) s =
    (Ok Build_DeleteVolumeResponse, s1,
     [Ev (WhichVCandDCByFCDId volumeId) (inl ErrNoDiskIDFound)]) /\
  run B (ControllerPublishVolume c {| cp_VolumeId := volumeId; cp_NodeId := nodeId |}) s =
    (Err (status_Errorf Internal), s1,
     [Ev (WhichVCandDCByFCDId volumeId) (inl ErrNoDiskIDFound)]).
Proof.
  intros Hv Hn Hres. split.
  - unfold DeleteVolume. cbn [dv_VolumeId]. rewrite (len_nonzero _ Hv).
    cbn [mbind Prog_bind bind call run]. rewrite Hres. reflexivity.
  - unfold ControllerPublishVolume. cbn [cp_VolumeId cp_NodeId].
    rewrite (len_nonzero _ Hv), (len_nonzero _ Hn).
    cbn [mbind Prog_bind bind call run]. rewrite Hres. reflexivity.
Qed.

End Resolution.

(** ** Pagination *)

Section Pagination.
Context `{K : PackageConsts}.

Lemma startOf_Atoi (token : string) (start : Z) :
  Atoi token = Some start -> startOf token = Some start.
Proof.
  intros H. unfold startOf. destruct token; [discriminate H | exact H].
Qed.

(** C9. A starting token that [Atoi] reads as a negative number passes
    the parse check and the start-beyond-end check, and the slice of the
    disk list then panics: the handler returns neither an error nor a
    page. *)
Theorem ListVolumes_negative_token_panics
    (B : Backend) (c : controller) (s : State B) (token : string) (start maxEntries : Z) :
  Atoi token = Some start -> start < 0 ->
  outcome (run B (ListVolumes c {| MaxEntries := maxEntries; StartingToken := token |}) s)
    = Panics.
Proof.
  intros Hatoi Hneg. unfold ListVolumes, outcome.
  cbn [mbind Prog_bind bind call run StartingToken MaxEntries].
  destruct (handle B getAllFCDs s) as [disks s1].
  rewrite (startOf_Atoi _ _ Hatoi).
  assert ((start >? Z.of_nat (length disks)) = false) as ->.
  { rewrite Z.gtb_ltb. apply Z.ltb_ge. lia. }
  assert (forall hi, slice disks start hi = None) as Hslice.
  { intros hi. unfold slice.
    assert ((0 <=? start) = false) as -> by (apply Z.leb_gt; exact Hneg).
    reflexivity. }
  destruct (_ >=? _); rewrite Hslice; reflexivity.
Qed.

End Pagination.

Section PaginationRule.
Context `{K : PackageConsts}.

Lemma slice_in_range {A} (l : list A) (lo hi : Z) :
  0 <= lo <= hi -> hi <= Z.of_nat (length l) ->
  slice l lo hi = Some (take (Z.to_nat (hi - lo)) (drop (Z.to_nat lo) l)).
Proof.
  intros [Hlo Hhi] Hlen. unfold slice.
  rewrite (proj2 (Z.leb_le _ _) Hlo), (proj2 (Z.leb_le _ _) Hhi),
    (proj2 (Z.leb_le _ _) Hlen).
  reflexivity.
Qed.

Lemma take_rest {A} (l : list A) (start : Z) (n : nat) :
  0 <= start ->
  (Z.to_nat (Z.of_nat (length l) - start) <= n)%nat ->
  take n (drop (Z.to_nat start) l) = drop (Z.to_nat start) l.
Proof.
  intros Hs Hn. apply take_ge. rewrite length_drop. lia.
Qed.

(** The rule of the paginator for a token that reads as an offset within
    the list and a non-negative [maxEntries]. *)
Lemma ListVolumes_page (B : Backend) (c : controller) (s s1 : State B)
    (disks : list FirstClassDiskInfo) (token : string) (start maxEntries : Z) :
  let total := Z.of_nat (length disks) in
  let stop :=
    if (maxEntries =? 0) || (total <=? maxEntries)
    then total
    else start + maxEntries - 1 in
  handle B getAllFCDs s = (disks, s1) ->
  startOf token = Some start ->
  0 <= start <= total ->
  0 <= maxEntries ->
  total + maxEntries <= maxInt64 ->
  run B (ListVolumes c {| MaxEntries := maxEntries; StartingToken := token |}) s =
    (Ok {| Entries := map entryOf (pageOf disks start stop);
           NextToken := if stop <? total then Itoa (stop + 1) else EmptyString |},
     s1, [Ev getAllFCDs disks]).
Proof.
  intros total stop Hget Hstart Hrange Hmax Hfit.
  unfold ListVolumes. cbn [mbind Prog_bind bind call run StartingToken MaxEntries].
  rewrite Hget, Hstart. fold total.
  assert ((start >? total) = false) as ->.
  { rewrite Z.gtb_ltb. apply Z.ltb_ge. lia. }
  assert (stopOf start maxEntries total = stop) as ->.
  { unfold stopOf, stop. rewrite Z.gtb_ltb.
    destruct (maxEntries =? 0) eqn:E0; [reflexivity |]. cbn [negb andb orb].
    destruct (total <=? maxEntries) eqn:E1.
    - apply Z.leb_le in E1.
      assert ((maxEntries <? total) = false) as -> by (apply Z.ltb_ge; lia).
      reflexivity.
    - apply Z.leb_gt in E1.
      rewrite (proj2 (Z.ltb_lt _ _) E1).
      apply wrap64_small. unfold minInt64, maxInt64 in *. lia. }
  assert (stop = total \/ (stop = start + maxEntries - 1 /\ 0 < maxEntries)) as Hstop.
  { unfold stop. destruct (maxEntries =? 0) eqn:E0; [left; reflexivity |].
    apply Z.eqb_neq in E0. cbn [orb].
    destruct (total <=? maxEntries); [left; reflexivity | right; lia]. }
  destruct (stop >=? total) eqn:Ege.
  - rewrite Z.geb_leb in Ege. apply Z.leb_le in Ege.
    assert ((stop <? total) = false) as -> by (apply Z.ltb_ge; lia).
    rewrite slice_in_range by lia. cbn iota.
    unfold pageOf. rewrite !take_rest by lia. reflexivity.
  - rewrite Z.geb_leb in Ege. apply Z.leb_gt in Ege.
    rewrite (proj2 (Z.ltb_lt _ _) Ege).
    assert (wrap64 (stop + 1) = stop + 1) as ->.
    { apply wrap64_small. unfold minInt64, maxInt64 in *. lia. }
    rewrite slice_in_range by lia. reflexivity.
Qed.

(** C1, as the code has it.  Over ten disks and [maxEntries = 3] the
    tokens [""], ["3"], ["6"], ["9"] give the pages of indices 0..2,
    3..5, 6..8 and 9, with next tokens ["3"], ["6"], ["9"] and none.  In
    general, for a token that reads as an offset [start <= total] and a
    non-negative [maxEntries], [stop = total] when [maxEntries] is zero
    or [total <= maxEntries], else [stop = start + maxEntries - 1]; the
    page holds the entries [start .. stop] of the list, as far as they
    exist, and carries the next token [stop + 1] exactly when
    [stop < total]. *)
Theorem ListVolumes_pagination (B : Backend) (c : controller) (s s1 : State B)
    (disks : list FirstClassDiskInfo) :
  handle B getAllFCDs s = (disks, s1) ->
  let page token maxEntries :=
    run B (ListVolumes c {| MaxEntries := maxEntries; StartingToken := token |}) s in
  let answer entries nextToken :=
    (Ok {| Entries := map entryOf entries; NextToken := nextToken |}, s1,
     [Ev getAllFCDs disks]) in
  (forall d0 d1 d2 d3 d4 d5 d6 d7 d8 d9,
     disks = [d0; d1; d2; d3; d4; d5; d6; d7; d8; d9] ->
     page "" 3 = answer [d0; d1; d2] "3" /\
     page "3" 3 = answer [d3; d4; d5] "6" /\
     page "6" 3 = answer [d6; d7; d8] "9" /\
     page "9" 3 = answer [d9] "") /\
  (forall token start maxEntries,
     let total := Z.of_nat (length disks) in
     let stop :=
       if (maxEntries =? 0) || (total <=? maxEntries)
       then total
       else start + maxEntries - 1 in
     startOf token = Some start ->
     0 <= start <= total ->
     0 <= maxEntries ->
     total + maxEntries <= maxInt64 ->
     page token maxEntries =
       answer (pageOf disks start stop)
         (if stop <? total then Itoa (stop + 1) else EmptyString)).
Proof.
  intros Hget page answer. split.
  - intros d0 d1 d2 d3 d4 d5 d6 d7 d8 d9 Hdisks. unfold page, answer.
    repeat split.
    + rewrite (ListVolumes_page B c s s1 disks "" 0 3 Hget eq_refl);
        subst disks; [reflexivity | cbn; lia | lia | cbn; unfold maxInt64; lia].
    + rewrite (ListVolumes_page B c s s1 disks "3" 3 3 Hget eq_refl);
        subst disks; [reflexivity | cbn; lia | lia | cbn; unfold maxInt64; lia].
    + rewrite (ListVolumes_page B c s s1 disks "6" 6 3 Hget eq_refl);
        subst disks; [reflexivity | cbn; lia | lia | cbn; unfold maxInt64; lia].
    + rewrite (ListVolumes_page B c s s1 disks "9" 9 3 Hget eq_refl);
        subst disks; [reflexivity | cbn; lia | lia | cbn; unfold maxInt64; lia].
  - intros token start maxEntries total stop Hstart Hrange Hmax Hfit.
    unfold page, answer. apply ListVolumes_page; assumption.
Qed.

End PaginationRule.

(** ** Zone resolution *)

Section Zones.
Context `{K : PackageConsts}.

Lemma rangeTopologies_zone_calls (B : Backend) (c : controller) segs d e (s : State B) :
  Forall (fun ev => isZoneCall (ev_call ev) = true)
    (trace (run B (rangeTopologies c segs d e) s)).
Proof.
  revert d e s. induction segs as [| t rest IH]; intros d e s.
  - constructor.
  - cbn [rangeTopologies mbind Prog_bind bind call run].
    destruct (handle B (segmentCall c t) s) as [[err | di] s1].
    + specialize (IH None (Some err) s1).
      destruct (run B (rangeTopologies c rest None (Some err)) s1) as [[o s2] tr].
      constructor; [reflexivity | exact IH].
    + constructor; [reflexivity | constructor].
Qed.

Lemma CreateVolume_zone_calls (B : Backend) (c : controller) a zone region (s : State B) :
  Forall (fun ev => isZoneCall (ev_call ev) = true)
    (trace (run B (CreateVolume_zone c a zone region) s)).
Proof.
  assert (Forall (fun ev => isZoneCall (ev_call ev) = true)
            (trace (run B (r ← call (zoneCall c zone region);
                           match r with
                           | inr discoveryInfo => mret (Some discoveryInfo, None)
                           | inl err => mret (None, Some err)
                           end) s))) as Hlegacy.
  { cbn [mbind Prog_bind bind call run].
    destruct (handle B (zoneCall c zone region) s) as [[err | di] s1];
      (constructor; [reflexivity | constructor]). }
  unfold CreateVolume_zone. destruct a as [a |]; [| exact Hlegacy].
  destruct (notNil (Requisite a) || notNil (Preferred a)); [| exact Hlegacy].
  destruct (notNil (Requisite a)); apply rangeTopologies_zone_calls.
Qed.

Lemma count_zone_calls (f : Call -> bool) (tr : list Event) :
  (forall c, isZoneCall c = true -> f c = false) ->
  Forall (fun ev => isZoneCall (ev_call ev) = true) tr ->
  count f tr = 0%nat.
Proof.
  intros Hf Hall. unfold count. induction Hall as [| ev tr Hev Hall IH]; [reflexivity |].
  rewrite filter_cons_False; [exact IH |].
  rewrite (Hf _ Hev). discriminate.
Qed.

Lemma count_app (f : Call -> bool) (t1 t2 : list Event) :
  count f (t1 ++ t2) = (count f t1 + count f t2)%nat.
Proof. unfold count. rewrite filter_app, length_app. reflexivity. Qed.

Lemma rangeTopologies_first_success (B : Backend) (c : controller)
    pre seg post di (s0 s1 s2 : State B) tpre d e :
  ZonesFail B c pre s0 s1 tpre ->
  handle B (segmentCall c seg) s1 = (inr di, s2) ->
  run B (rangeTopologies c (pre ++ seg :: post) d e) s0 =
    ((Some di, None), s2, tpre ++ [Ev (segmentCall c seg) (inr di)]).
Proof.
  intros Hpre Hseg. revert d e.
  induction Hpre as [s | t rest err s s1' s2' tr Ht Hrest IH]; intros d e.
  - cbn [app rangeTopologies mbind Prog_bind bind call run]. rewrite Hseg. reflexivity.
  - cbn [app rangeTopologies mbind Prog_bind bind call run]. rewrite Ht.
    rewrite (IH Hseg). reflexivity.
Qed.

Lemma rangeTopologies_all_fail (B : Backend) (c : controller) segs (s0 s1 : State B) tr d e :
  ZonesFail B c segs s0 s1 tr ->
  exists d' e', run B (rangeTopologies c segs d e) s0 = ((d', e'), s1, tr) /\
    (segs <> [] -> d' = None /\ is_Some e').
Proof.
  intros Hfail. revert d e.
  induction Hfail as [s | t rest err s s1' s2' tr Ht Hrest IH]; intros d e.
  - exists d, e. split; [reflexivity | intros H; contradiction].
  - cbn [rangeTopologies mbind Prog_bind bind call run]. rewrite Ht.
    destruct (IH None (Some err)) as (d' & e' & Hrun & Hres).
    rewrite Hrun. exists d', e'. split; [reflexivity |]. intros _.
    destruct rest as [| t' rest'].
    + inversion Hrest; subst. cbn in Hrun. inversion Hrun; subst. eauto.
    + apply Hres. discriminate.
Qed.

Lemma candidates_hasTopology a : candidates a <> [] -> hasTopology a = true.
Proof.
  unfold candidates, hasTopology.
  destruct (Requisite a) as [req |]; [reflexivity |].
  destruct (Preferred a) as [pref |]; [reflexivity |].
  intros H. contradiction H. reflexivity.
Qed.

Lemma CreateVolume_zone_candidates (c : controller) a zone region :
  hasTopology a = true ->
  CreateVolume_zone c (Some a) zone region = rangeTopologies c (candidates a) None None.
Proof.
  unfold hasTopology, candidates, CreateVolume_zone. intros ->.
  destruct (notNil (Requisite a)); reflexivity.
Qed.

Lemma CreateVolume_zone_legacy (B : Backend) (c : controller) a zone region (s : State B) :
  a = None \/ (exists t, a = Some t /\ Requisite t = None /\ Preferred t = None) ->
  run B (CreateVolume_zone c a zone region) s =
    (match (handle B (zoneCall c zone region) s).1 with
     | inr discoveryInfo => (Some discoveryInfo, None)
     | inl err => (None, Some err)
     end,
     (handle B (zoneCall c zone region) s).2,
     [Ev (zoneCall c zone region) (handle B (zoneCall c zone region) s).1]).
Proof.
  intros Ha.
  assert (CreateVolume_zone c a zone region =
            r ← call (zoneCall c zone region);
            match r with
            | inr discoveryInfo => mret (Some discoveryInfo, None)
            | inl err => mret (None, Some err)
            end) as ->.
  { destruct Ha as [-> | (t & -> & Hr & Hp)]; [reflexivity |].
    unfold CreateVolume_zone. rewrite Hr, Hp. reflexivity. }
  cbn [mbind Prog_bind bind call run].
  destruct (handle B (zoneCall c zone region) s) as [[err | di] s1]; reflexivity.
Qed.

Lemma CreateVolume_run (B : Backend) (c : controller) req params (s0 : State B) :
  validCreate req params ->
  run B (CreateVolume c req) s0 =
    let '(d, e, s1, tz) :=
      run B (CreateVolume_zone c (GetAccessibilityRequirements req)
               (mapIndex params AttributeFirstClassDiskZone)
               (mapIndex params AttributeFirstClassDiskRegion)) s0 in
    match e, d with
    | Some _, _ => (Err (status_Errorf Internal), s1, tz)
    | None, None => (Panics, s1, tz)
    | None, Some discoveryInfo =>
        let '(o, s2, t) :=
          run B (CreateVolume_disk discoveryInfo
                   (mapIndex params AttributeFirstClassDiskParentName)
                   (datastoreType params) (GetName req) (volSizeMB req)) s1 in
        (o, s2, tz ++ t)
    end.
Proof.
  intros Hvalid. rewrite (CreateVolume_valid c req params Hvalid), run_bind.
  destruct (run B (CreateVolume_zone _ _ _ _) s0) as [[[d e] s1] tz].
  destruct e as [err |]; [cbn; rewrite app_nil_r; reflexivity |].
  destruct d as [di |]; [| cbn; rewrite app_nil_r; reflexivity].
  reflexivity.
Qed.

End Zones.

Section ZoneResolution.
Context `{K : PackageConsts}.

Lemma ZonesFail_calls (B : Backend) (c : controller) segs (s0 s1 : State B) tr :
  ZonesFail B c segs s0 s1 tr ->
  length tr = length segs /\ count isZoneCall tr = length segs.
Proof.
  induction 1 as [s | t rest e s s1 s2 tr Ht Hrest [IHlen IHcount]];
    [split; reflexivity |].
  split; [cbn; congruence |].
  change (Ev (segmentCall c t) (inl e) :: tr)
    with ([Ev (segmentCall c t) (inl e)] ++ tr).
  rewrite count_app, IHcount. reflexivity.
Qed.

Lemma CreateVolume_disk_zone_calls (B : Backend) di datastoreName datastoreType volName
    volSizeMB (s : State B) :
  count isZoneCall
    (trace (run B (CreateVolume_disk di datastoreName datastoreType volName volSizeMB) s)) =
    0%nat.
Proof.
  unfold CreateVolume_disk. cbn [mbind Prog_bind bind call run].
  destruct (handle B _ s) as [[e | d] s1].
  - cbn [mbind Prog_bind bind call run].
    destruct (handle B _ s1) as [[err |] s2]; [reflexivity |].
    cbn [mbind Prog_bind bind call run].
    destruct (handle B _ s2) as [[e' | d] s3]; reflexivity.
  - destruct (negb _); reflexivity.
Qed.

Lemma CreateVolume_disk_lookup (B : Backend) di datastoreName datastoreType volName
    volSizeMB (s : State B) :
  let lookup :=
    GetFirstClassDisk (DataCenter di) datastoreName datastoreType volName FindFCDByName in
  exists rest,
    trace (run B (CreateVolume_disk di datastoreName datastoreType volName volSizeMB) s) =
      Ev lookup (handle B lookup s).1 :: rest.
Proof.
  intros lookup. unfold CreateVolume_disk. cbn [mbind Prog_bind bind call run].
  fold lookup. destruct (handle B lookup s) as [r s1].
  destruct (run B _ s1) as [[o s2] t]. eexists. reflexivity.
Qed.

(** X13. With a topology requirement, [CreateVolume] ranges over the
    requisite list when that list is not nil, otherwise over the
    preferred list, and takes the first segment the backend resolves:
    the calls of the resolution are those of the failed segments before
    it and its own, the next call is the disk lookup in the datacenter
    it resolved to, and the request issues no other resolution call.
    When every segment of a list that has segments fails, the result is
    an [Internal] error after exactly those calls.  Without a topology
    requirement, or with one whose two lists are nil, the only
    resolution call is the one with the zone and region parameters. *)
Theorem zone_resolution_first_success_wins
    (B : Backend) (c : controller) req params :
  validCreate req params ->
  let zone := mapIndex params AttributeFirstClassDiskZone in
  let region := mapIndex params AttributeFirstClassDiskRegion in
  let resolution := CreateVolume_zone c (GetAccessibilityRequirements req) zone region in
  (forall a pre seg post di (s0 s1 s2 : State B) tpre,
     GetAccessibilityRequirements req = Some a ->
     candidates a = pre ++ seg :: post ->
     ZonesFail B c pre s0 s1 tpre ->
     handle B (segmentCall c seg) s1 = (inr di, s2) ->
     let calls := tpre ++ [Ev (segmentCall c seg) (inr di)] in
     let lookup :=
       GetFirstClassDisk (DataCenter di)
         (mapIndex params AttributeFirstClassDiskParentName) (datastoreType params)
         (GetName req) FindFCDByName in
     run B resolution s0 = ((Some di, None), s2, calls) /\
     length tpre = length pre /\
     (exists rest,
        trace (run B (CreateVolume c req) s0) =
          calls ++ Ev lookup (handle B lookup s2).1 :: rest) /\
     count isZoneCall (trace (run B (CreateVolume c req) s0)) = S (length pre)) /\
  (forall a (s0 s1 : State B) tr,
     GetAccessibilityRequirements req = Some a ->
     candidates a <> [] ->
     ZonesFail B c (candidates a) s0 s1 tr ->
     run B (CreateVolume c req) s0 = (Err (status_Errorf Internal), s1, tr)) /\
  (forall (s0 : State B),
     GetAccessibilityRequirements req = None \/
     (exists a, GetAccessibilityRequirements req = Some a /\
        Requisite a = None /\ Preferred a = None) ->
     trace (run B resolution s0) =
       [Ev (zoneCall c zone region) (handle B (zoneCall c zone region) s0).1]).
Proof.
  intros Hvalid zone region resolution. split; [| split].
  - intros a pre seg post di s0 s1 s2 tpre Ha Hcand Hpre Hseg calls lookup.
    assert (run B resolution s0 = ((Some di, None), s2, calls)) as Hres.
    { unfold resolution. rewrite Ha.
      rewrite CreateVolume_zone_candidates
        by (apply candidates_hasTopology; rewrite Hcand; destruct pre; discriminate).
      rewrite Hcand.
      exact (rangeTopologies_first_success B c pre seg post di s0 s1 s2 tpre
               None None Hpre Hseg). }
    destruct (ZonesFail_calls B c pre s0 s1 tpre Hpre) as [Hlen Hcount].
    split; [exact Hres | split; [exact Hlen |]].
    rewrite (CreateVolume_run B c req params s0 Hvalid).
    fold zone region resolution. rewrite Hres.
    pose proof (CreateVolume_disk_zone_calls B di
                  (mapIndex params AttributeFirstClassDiskParentName)
                  (datastoreType params) (GetName req) (volSizeMB req) s2) as Hdisk.
    destruct (CreateVolume_disk_lookup B di
                (mapIndex params AttributeFirstClassDiskParentName)
                (datastoreType params) (GetName req) (volSizeMB req) s2) as [rest Hrest].
    fold lookup in Hrest.
    destruct (run B (CreateVolume_disk _ _ _ _ _) s2) as [[o s3] t].
    unfold trace in *. cbn [fst snd] in *. subst t.
    split; [exists rest; reflexivity |].
    assert (count isZoneCall [Ev (segmentCall c seg) (inr di)] = 1%nat) as Hone
      by reflexivity.
    unfold calls. rewrite !count_app, Hcount, Hone, Hdisk. lia.
  - intros a s0 s1 tr Ha Hne Hfail.
    rewrite (CreateVolume_run B c req params s0 Hvalid), Ha.
    rewrite CreateVolume_zone_candidates by (apply candidates_hasTopology, Hne).
    destruct (rangeTopologies_all_fail B c _ s0 s1 tr None None Hfail)
      as (d' & e' & -> & Hres).
    destruct (Hres Hne) as [-> [err ->]]. reflexivity.
  - intros s0 Hlegacy. unfold resolution.
    rewrite CreateVolume_zone_legacy by (destruct Hlegacy; eauto). reflexivity.
Qed.

End ZoneResolution.

(** ** Create or get *)

Section CreateOrGet.
Context `{K : PackageConsts}.

(** C3. Once the zone is resolved, [CreateVolume] looks the disk up by
    name in the given pool.  If the disk exists with the requested
    capacity in MB, its id is returned and no create call is issued; if
    it exists with another capacity, the result is [AlreadyExists] and
    no call that changes the backend is issued.  If the lookup fails,
    exactly one create call is issued, with the requested capacity; when
    it succeeds it is followed by the same lookup by name, whose disk is
    returned, and when it fails the result is [Internal]. *)
Theorem CreateVolume_idempotent_by_name_and_size
    (B : Backend) (c : controller) req params (s0 s1 : State B) di tz :
  validCreate req params ->
  run B (CreateVolume_zone c (GetAccessibilityRequirements req)
           (mapIndex params AttributeFirstClassDiskZone)
           (mapIndex params AttributeFirstClassDiskRegion)) s0 = ((Some di, None), s1, tz) ->
  let datastoreName := mapIndex params AttributeFirstClassDiskParentName in
  let lookup :=
    GetFirstClassDisk (DataCenter di) datastoreName (datastoreType params) (GetName req)
      FindFCDByName in
  let create :=
    CreateFirstClassDisk (DataCenter di) datastoreName (datastoreType params) (GetName req)
      (volSizeMB req) in
  let result := run B (CreateVolume c req) s0 in
  (forall d s2,
     handle B lookup s1 = (inr d, s2) -> Config_CapacityInMB d = volSizeMB req ->
     result = (Ok (CreateVolume_response di d), s2, tz ++ [Ev lookup (inr d)]) /\
     VolumeId (cv_Volume (CreateVolume_response di d)) = Config_Id_Id d /\
     count isCreate (trace result) = 0%nat) /\
  (forall d s2,
     handle B lookup s1 = (inr d, s2) -> Config_CapacityInMB d <> volSizeMB req ->
     result = (Err (status_Errorf AlreadyExists), s2, tz ++ [Ev lookup (inr d)]) /\
     count isMutation (trace result) = 0%nat) /\
  (forall e s2 err s3,
     handle B lookup s1 = (inl e, s2) -> handle B create s2 = (Some err, s3) ->
     result =
       (Err (status_Errorf Internal), s3, tz ++ [Ev lookup (inl e); Ev create (Some err)]) /\
     count isCreate (trace result) = 1%nat) /\
  (forall e s2 s3 r s4,
     handle B lookup s1 = (inl e, s2) -> handle B create s2 = (None, s3) ->
     handle B lookup s3 = (r, s4) ->
     result =
       (match r with
        | inr d => Ok (CreateVolume_response di d)
        | inl _ => Err (status_Errorf Internal)
        end, s4, tz ++ [Ev lookup (inl e); Ev create None; Ev lookup r]) /\
     count isCreate (trace result) = 1%nat).
Proof.
  intros Hvalid Hzone datastoreName lookup create result.
  assert (result =
            let '(o, s2, t) :=
              run B (CreateVolume_disk di datastoreName (datastoreType params)
                       (GetName req) (volSizeMB req)) s1 in
            (o, s2, tz ++ t)) as Hrun.
  { unfold result. rewrite (CreateVolume_run B c req params s0 Hvalid), Hzone.
    reflexivity. }
  assert (forall f, (forall c, isZoneCall c = true -> f c = false) ->
            count f tz = 0%nat) as Htz.
  { intros f Hf. apply count_zone_calls; [exact Hf |].
    pose proof (CreateVolume_zone_calls B c (GetAccessibilityRequirements req)
                  (mapIndex params AttributeFirstClassDiskZone)
                  (mapIndex params AttributeFirstClassDiskRegion) s0) as Hall.
    rewrite Hzone in Hall. exact Hall. }
  assert (count isCreate tz = 0%nat) as Hcreate
    by (apply Htz; intros [] H; (discriminate H || reflexivity)).
  assert (count isMutation tz = 0%nat) as Hmut
    by (apply Htz; intros [] H; (discriminate H || reflexivity)).
  unfold CreateVolume_disk in Hrun.
  cbn [mbind Prog_bind bind call run] in Hrun. fold lookup create in Hrun.
  split; [| split; [| split]].
  - intros d s2 Hlookup Hcap. rewrite Hlookup in Hrun.
    rewrite (proj2 (Z.eqb_eq _ _) Hcap) in Hrun. cbn in Hrun.
    rewrite Hrun. split; [reflexivity | split; [reflexivity |]].
    unfold trace. cbn [snd]. rewrite count_app, Hcreate. reflexivity.
  - intros d s2 Hlookup Hcap. rewrite Hlookup in Hrun.
    rewrite (proj2 (Z.eqb_neq _ _) Hcap) in Hrun. cbn in Hrun.
    rewrite Hrun. split; [reflexivity |].
    unfold trace. cbn [snd]. rewrite count_app, Hmut. reflexivity.
  - intros e s2 err s3 Hlookup Hcr. rewrite Hlookup in Hrun.
    cbn [mbind Prog_bind bind call run] in Hrun. fold create in Hrun.
    rewrite Hcr in Hrun. cbn in Hrun.
    rewrite Hrun. split; [reflexivity |].
    unfold trace. cbn [snd]. rewrite count_app, Hcreate. reflexivity.
  - intros e s2 s3 r s4 Hlookup Hcr Hback. rewrite Hlookup in Hrun.
    cbn [mbind Prog_bind bind call run] in Hrun. fold create in Hrun.
    rewrite Hcr in Hrun.
    cbn [mbind Prog_bind bind call run] in Hrun. fold lookup in Hrun.
    rewrite Hback in Hrun.
    assert (result =
              (match r with
               | inr d => Ok (CreateVolume_response di d)
               | inl _ => Err (status_Errorf Internal)
               end, s4, tz ++ [Ev lookup (inl e); Ev create None; Ev lookup r])) as ->.
    { rewrite Hrun. destruct r; reflexivity. }
    split; [reflexivity |].
    unfold trace. cbn [snd]. rewrite count_app, Hcreate. reflexivity.
Qed.

(** C10. The datastore type of [CreateVolume] is [TypeDatastore] only for
    a parent-type parameter equal to that string, and
    [TypeDatastoreCluster] for every other value; a request with such a
    value is not rejected: once the zone is resolved, the disk is looked
    up, and created if need be, as a disk of a datastore cluster. *)
Theorem unknown_parent_type_is_datastore_cluster
    (B : Backend) (c : controller) req params (s0 s1 : State B) di tz :
  validCreate req params ->
  run B (CreateVolume_zone c (GetAccessibilityRequirements req)
           (mapIndex params AttributeFirstClassDiskZone)
           (mapIndex params AttributeFirstClassDiskRegion)) s0 = ((Some di, None), s1, tz) ->
  let volType := mapIndex params AttributeFirstClassDiskParentType in
  (volType = TypeDatastore -> datastoreType params = TypeDatastore) /\
  (volType <> TypeDatastore ->
   datastoreType params = TypeDatastoreCluster /\
   run B (CreateVolume c req) s0 =
     let '(o, s2, t) :=
       run B (CreateVolume_disk di (mapIndex params AttributeFirstClassDiskParentName)
                TypeDatastoreCluster (GetName req) (volSizeMB req)) s1 in
     (o, s2, tz ++ t)).
Proof.
  intros Hvalid Hzone volType. split.
  - intros Htype. unfold datastoreType. fold volType.
    rewrite Htype, String.eqb_refl. reflexivity.
  - intros Htype.
    assert (datastoreType params = TypeDatastoreCluster) as Hcluster.
    { unfold datastoreType. fold volType.
      rewrite (proj2 (String.eqb_neq _ _) Htype). reflexivity. }
    split; [exact Hcluster |].
    rewrite (CreateVolume_run B c req params s0 Hvalid), Hzone, Hcluster. reflexivity.
Qed.

End CreateOrGet.

(** ** Attribute maps *)

Section Attributes.
Context `{K : PackageConsts}.

Lemma Leaves_run (B : Backend) {A} (P : A -> Prop) (p : Prog A) (s : State B) :
  Leaves P p -> P (outcome (run B p s)).
Proof.
  revert s. induction p as [a | c k IH]; intros s Hp; [exact Hp |].
  cbn [run]. destruct (handle B c s) as [r s1].
  specialize (IH r s1 (Hp r)).
  destruct (run B (k r) s1) as [[a s2] tr]. exact IH.
Qed.

Lemma attributes_describe (vcServer dcName : string) (fcd : FirstClassDiskInfo) :
  NoDup attributeKeys ->
  describes (attributes vcServer dcName fcd) fcd /\
  forall diskUUID,
    describes
      (<[AttributeFirstClassDiskPage83Data := diskUUID]> (attributes vcServer dcName fcd))
      fcd.
Proof.
  unfold attributeKeys, requiredKeys. cbn [app].
  rewrite !NoDup_cons, !not_elem_of_cons.
  intros Hkeys. destruct_and!.
  unfold describes, requiredKeys, attributes.
  destruct (String.eqb (ParentType fcd) TypeDatastoreCluster) eqn:E.
  - apply String.eqb_eq in E.
    split; [| intros diskUUID]; (split; [repeat constructor | split]);
      simplify_map_eq; try (eexists; reflexivity); try reflexivity; split; eauto.
  - apply String.eqb_neq in E.
    split; [| intros diskUUID]; (split; [repeat constructor | split]);
      simplify_map_eq; try (eexists; reflexivity); try reflexivity;
      (split; [intros [x Hx]; discriminate Hx | intros Hx; contradiction]).
Qed.

End Attributes.

Section AttributeMaps.
Context `{K : PackageConsts}.
Hypothesis keys_distinct : NoDup attributeKeys.

Lemma Traced_run (B : Backend) {A} (P : list Event -> A -> Prop) (p : Prog A)
    (s : State B) :
  Traced P p -> P (trace (run B p s)) (outcome (run B p s)).
Proof.
  revert P s. induction p as [a | c k IH]; intros P s Hp; [exact Hp |].
  cbn [run]. destruct (handle B c s) as [r s1].
  specialize (IH r _ s1 (Hp r)).
  destruct (run B (k r) s1) as [[a s2] tr]. exact IH.
Qed.

Lemma Traced_bind {A C} (Q : list Event -> A -> Prop) (P : list Event -> C -> Prop)
    (p : Prog A) (f : A -> Prog C) :
  Traced Q p ->
  (forall tr a, Q tr a -> Traced (fun tr' => P (tr ++ tr')) (f a)) ->
  Traced P (p ≫= f).
Proof.
  unfold mbind, Prog_bind. revert Q P.
  induction p as [a | c k IH]; intros Q P Hp Hf; cbn [bind Traced] in *.
  - exact (Hf [] a Hp).
  - intros r. apply (IH r (fun tr => Q (Ev c r :: tr))); [exact (Hp r) |].
    intros tr a Hq. exact (Hf _ a Hq).
Qed.

Lemma rangeTopologies_reports_no_disk (c : controller) segs d e :
  Traced (fun tr _ => reported tr = []) (rangeTopologies c segs d e).
Proof.
  assert (forall P : list Event -> option ZoneDiscoveryInfo * option error -> Prop,
            (forall tr x, reported tr = [] -> P tr x) ->
            Traced P (rangeTopologies c segs d e)) as Hgen.
  { revert d e. induction segs as [| t rest IH]; intros d e P HP.
    - apply HP. reflexivity.
    - cbn [rangeTopologies mbind Prog_bind bind call Traced].
      intros [err | di].
      + apply IH. intros tr x Htr. apply HP. exact Htr.
      + apply HP. reflexivity. }
  apply Hgen. intros tr x H. exact H.
Qed.

Lemma CreateVolume_zone_reports_no_disk (c : controller) a zone region :
  Traced (fun tr _ => reported tr = []) (CreateVolume_zone c a zone region).
Proof.
  assert (Traced (fun tr (_ : option ZoneDiscoveryInfo * option error) => reported tr = [])
            (r ← call (zoneCall c zone region);
             match r with
             | inr discoveryInfo => mret (Some discoveryInfo, None)
             | inl err => mret (None, Some err)
             end)) as Hlegacy.
  { cbn [mbind Prog_bind bind call Traced]. intros [err | di]; reflexivity. }
  unfold CreateVolume_zone. destruct a as [a |]; [| exact Hlegacy].
  destruct (notNil (Requisite a) || notNil (Preferred a)); [| exact Hlegacy].
  destruct (notNil (Requisite a)); apply rangeTopologies_reports_no_disk.
Qed.

Lemma reported_app (t1 t2 : list Event) : reported (t1 ++ t2) = reported t1 ++ reported t2.
Proof. unfold reported. apply flat_map_app. Qed.

Lemma CreateVolume_traced (c : controller) req :
  Traced (fun tr o => forall resp, o = Ok resp ->
            exists fcd, last (reported tr) = Some fcd /\
              VolumeId (cv_Volume resp) = Config_Id_Id fcd /\
              describes (VolumeContext (cv_Volume resp)) fcd)
    (CreateVolume c req).
Proof.
  unfold CreateVolume.
  destruct (GetParameters req) as [params |]; [| intros resp H; discriminate H].
  destruct (len (GetName req) =? 0); [intros resp H; discriminate H |].
  destruct (len (mapIndex params AttributeFirstClassDiskParentType) =? 0);
    [intros resp H; discriminate H |].
  destruct (len (mapIndex params AttributeFirstClassDiskParentName) =? 0);
    [intros resp H; discriminate H |].
  apply (Traced_bind _ _ _ _ (CreateVolume_zone_reports_no_disk c _ _ _)).
  intros tz [d e] Htz.
  destruct e as [err |]; [intros resp H; discriminate H |].
  destruct d as [di |]; [| intros resp H; discriminate H].
  unfold CreateVolume_disk. cbn [mbind Prog_bind bind call Traced].
  intros [e | d].
  - intros [err |]; [intros resp H; discriminate H |].
    intros [e' | d]; [intros resp H; discriminate H |].
    intros resp Hresp. injection Hresp as <-. exists d.
    split; [| split; [reflexivity | apply attributes_describe, keys_distinct]].
    rewrite reported_app, Htz. reflexivity.
  - destruct (negb _); [intros resp H; discriminate H |].
    intros resp Hresp. injection Hresp as <-. exists d.
    split; [| split; [reflexivity | apply attributes_describe, keys_distinct]].
    rewrite reported_app, Htz. reflexivity.
Qed.

Lemma ControllerPublishVolume_traced (c : controller) req :
  Traced (fun tr o => forall resp, o = Ok resp ->
            exists fcd, reported tr = [fcd] /\ describes (PublishContext resp) fcd)
    (ControllerPublishVolume c req).
Proof.
  unfold ControllerPublishVolume.
  destruct (len (cp_VolumeId req) =? 0); [intros resp H; discriminate H |].
  destruct (len (cp_NodeId req) =? 0); [intros resp H; discriminate H |].
  cbn [mbind Prog_bind bind call Traced].
  intros [e | di]; [intros resp H; discriminate H |].
  intros [e | vm]; [intros resp H; discriminate H |].
  destruct (filePathOf (FCDInfo di)) as [filePath |]; [| intros resp H; discriminate H].
  cbn [mbind Prog_bind bind call Traced].
  intros [e | diskUUID]; [intros resp H; discriminate H |].
  intros resp Hresp. injection Hresp as <-. exists (FCDInfo di).
  split; [reflexivity | apply attributes_describe, keys_distinct].
Qed.

Lemma entryOf_describes (disks : list FirstClassDiskInfo) :
  Forall2 entryDescribes (map entryOf disks) disks.
Proof.
  induction disks as [| d rest IH]; constructor; [| exact IH].
  split; [reflexivity | apply attributes_describe, keys_distinct].
Qed.

Lemma take_length_take {A} (n : nat) (l : list A) : take (length (take n l)) l = take n l.
Proof.
  revert l. induction n as [| n IH]; intros [| x l]; cbn; [reflexivity .. |].
  rewrite IH. reflexivity.
Qed.

Lemma ListVolumes_traced (c : controller) req :
  Traced (fun tr o => forall resp, o = Ok resp ->
            exists start, startOf (StartingToken req) = Some start /\
              Forall2 entryDescribes (Entries resp)
                (take (length (Entries resp)) (drop (Z.to_nat start) (reported tr))))
    (ListVolumes c req).
Proof.
  unfold ListVolumes. cbn [mbind Prog_bind bind call Traced]. intros disks.
  destruct (startOf (StartingToken req)) as [start |]; [| intros resp H; discriminate H].
  destruct (start >? _); [intros resp H; discriminate H |].
  assert (forall hi subset, slice disks start hi = Some subset ->
            Forall2 entryDescribes (map entryOf subset)
              (take (length (map entryOf subset)) (drop (Z.to_nat start) disks))) as Hslice.
  { intros hi subset Hs. unfold slice in Hs.
    destruct (_ && _); [| discriminate Hs]. injection Hs as <-.
    rewrite length_map, take_length_take. apply entryOf_describes. }
  destruct (if _ >=? _ then _ else _) as [subset |] eqn:E; [| intros resp H; discriminate H].
  intros resp Hresp. injection Hresp as <-. exists start. split; [reflexivity |].
  cbn [Entries]. unfold reported. cbn [flat_map disksOf]. rewrite app_nil_r.
  destruct (_ >=? _); exact (Hslice _ _ E).
Qed.

(** C7. With pairwise distinct attribute keys, every attribute map the
    controller returns is the map of the disk the backend reported: the
    volume context of [CreateVolume] describes the disk of its last
    lookup, the publish context of [ControllerPublishVolume] the one
    disk the resolution of the volume id reported, and the volume
    contexts of the entries of [ListVolumes] describe, one by one, the
    disks of the listing from the start offset on.  A map that describes
    a disk carries the type marker, the vCenter, the datacenter, the disk
    name, the parent type and the parent name, records as the parent
    type that of the disk, and carries the owning datastore exactly when
    the parent type of that disk is the datastore cluster. *)
Theorem attribute_maps_carry_the_required_keys
    (B : Backend) (c : controller) (s : State B) :
  (forall req resp s' tr,
     run B (CreateVolume c req) s = (Ok resp, s', tr) ->
     exists fcd, last (reported tr) = Some fcd /\
       VolumeId (cv_Volume resp) = Config_Id_Id fcd /\
       describes (VolumeContext (cv_Volume resp)) fcd) /\
  (forall req resp s' tr,
     run B (ControllerPublishVolume c req) s = (Ok resp, s', tr) ->
     exists fcd, reported tr = [fcd] /\ describes (PublishContext resp) fcd) /\
  (forall req resp s' tr,
     run B (ListVolumes c req) s = (Ok resp, s', tr) ->
     exists start, startOf (StartingToken req) = Some start /\
       Forall2 entryDescribes (Entries resp)
         (take (length (Entries resp)) (drop (Z.to_nat start) (reported tr)))).
Proof.
  split; [| split]; intros req resp s' tr Hrun.
  - pose proof (Traced_run B _ _ s (CreateVolume_traced c req)) as H.
    rewrite Hrun in H. exact (H resp eq_refl).
  - pose proof (Traced_run B _ _ s (ControllerPublishVolume_traced c req)) as H.
    rewrite Hrun in H. exact (H resp eq_refl).
  - pose proof (Traced_run B _ _ s (ListVolumes_traced c req)) as H.
    rewrite Hrun in H. exact (H resp eq_refl).
Qed.

End AttributeMaps.

(** * Further properties of the handlers *)

(** ** Tokens: [Itoa] and [Atoi] *)

Lemma parseDigits_uint (d : Decimal.uint) (acc : Z) :
  parseDigits (NilEmpty.string_of_uint d) acc =
    Some (Z.of_N (Unsigned.of_lu (Decimal.rev d)) + acc * 10 ^ Z.of_N (Unsigned.usize d)).
Proof.
  revert acc.
  induction d as [| d IH | d IH | d IH | d IH | d IH | d IH | d IH | d IH | d IH | d IH];
    intros acc;
    [ cbn; f_equal; lia | .. ];
    cbn [NilEmpty.string_of_uint parseDigits];
    match goal with
    | |- context [digit ?ch] =>
        let v := eval vm_compute in (digit ch) in change (digit ch) with v
    end;
    cbv iota; rewrite IH; f_equal;
    match goal with
    | |- context [Decimal.rev (?D d)] =>
        change (Decimal.rev (D d)) with (Decimal.revapp d (D Decimal.Nil));
        rewrite (Unsigned.of_lu_revapp d (D Decimal.Nil))
    end;
    cbn [Unsigned.usize Unsigned.of_lu];
    rewrite N2Z.inj_add, N2Z.inj_mul, N2Z.inj_pow, N2Z.inj_succ, Z.pow_succ_r
      by apply N2Z.is_nonneg;
    cbn; lia.
Qed.

Lemma string_of_uint_head (d : Decimal.uint) :
  d <> Decimal.Nil ->
  exists ch rest, NilEmpty.string_of_uint d = String ch rest /\
    Ascii.eqb ch "-" = false /\ Ascii.eqb ch "+" = false.
Proof.
  destruct d; [congruence | ..]; intros _; cbn; eexists _, _; repeat split.
Qed.

Lemma Atoi_Itoa (n : Z) : minInt64 <= n <= maxInt64 -> Atoi (Itoa n) = Some n.
Proof.
  intros Hn. unfold Itoa.
  assert (forall p, parseDigits (NilEmpty.string_of_uint (Pos.to_uint p)) 0 = Some (Z.pos p))
    as Hdigits.
  { intros p. rewrite parseDigits_uint, <- Unsigned.of_uint_alt, Unsigned.of_to.
    reflexivity. }
  destruct n as [| p | p]; [reflexivity | |].
  - cbn [Z.to_int NilZero.string_of_int]. unfold NilZero.string_of_uint.
    pose proof (Unsigned.to_uint_nonnil p) as Hnil.
    destruct (string_of_uint_head _ Hnil) as (ch & rest & Hs & Hminus & Hplus).
    assert (NilEmpty.string_of_uint (Pos.to_uint p) = String ch rest) as Hs' by exact Hs.
    destruct (Pos.to_uint p) eqn:E; [congruence | ..];
      rewrite Hs'; unfold Atoi; rewrite Hminus, Hplus; cbn [orb];
      rewrite <- Hs', <- E, Hdigits;
      rewrite (proj2 (Z.leb_le _ _) (proj1 Hn)), (proj2 (Z.leb_le _ _) (proj2 Hn));
      reflexivity.
  - cbn [Z.to_int NilZero.string_of_int]. unfold NilZero.string_of_uint.
    pose proof (Unsigned.to_uint_nonnil p) as Hnil.
    destruct (string_of_uint_head _ Hnil) as (ch & rest & Hs & _).
    assert (NilEmpty.string_of_uint (Pos.to_uint p) = String ch rest) as Hs' by exact Hs.
    destruct (Pos.to_uint p) eqn:E; [congruence | ..];
      unfold Atoi; cbn [Ascii.eqb Bool.eqb orb]; rewrite Hs';
      rewrite <- Hs', <- E, Hdigits;
      change (- Z.pos p) with (Z.neg p);
      rewrite (proj2 (Z.leb_le _ _) (proj1 Hn)), (proj2 (Z.leb_le _ _) (proj2 Hn));
      reflexivity.
Qed.

Lemma Itoa_nonempty (n : Z) : Itoa n <> EmptyString.
Proof.
  unfold Itoa. destruct n as [| p | p]; [discriminate | | discriminate].
  cbn [Z.to_int NilZero.string_of_int]. unfold NilZero.string_of_uint.
  pose proof (Unsigned.to_uint_nonnil p) as Hnil.
  destruct (Pos.to_uint p); [congruence | ..]; discriminate.
Qed.

(** ** Pagination *)

Section MorePagination.
Context `{K : PackageConsts}.

Lemma startOf_Itoa (n : Z) : 0 <= n <= maxInt64 -> startOf (Itoa n) = Some n.
Proof.
  intros Hn. unfold startOf.
  rewrite (proj2 (String.eqb_neq _ _) (Itoa_nonempty n)).
  apply Atoi_Itoa. unfold minInt64, maxInt64 in *. lia.
Qed.

(** X1. A token that reads as an offset beyond the number of disks is
    answered with an [Internal] error; the offset equal to the number of
    disks is still accepted and gives an empty page without a next
    token. *)
Theorem ListVolumes_start_at_or_beyond_end
    (B : Backend) (c : controller) (s s1 : State B)
    (disks : list FirstClassDiskInfo) (token : string) (start maxEntries : Z) :
  let total := Z.of_nat (length disks) in
  let result :=
    run B (ListVolumes c {| MaxEntries := maxEntries; StartingToken := token |}) s in
  handle B getAllFCDs s = (disks, s1) ->
  startOf token = Some start ->
  (total < start ->
   result = (Err (status_Errorf Internal), s1, [Ev getAllFCDs disks])) /\
  (start = total -> 0 <= maxEntries -> total + maxEntries <= maxInt64 ->
   result = (Ok {| Entries := []; NextToken := EmptyString |}, s1, [Ev getAllFCDs disks])).
Proof.
  intros total result Hget Hstart. split.
  - intros Hbeyond. unfold result, ListVolumes.
    cbn [mbind Prog_bind bind call run StartingToken MaxEntries].
    rewrite Hget, Hstart. fold total.
    rewrite (proj2 (Z.gtb_lt _ _) Hbeyond). reflexivity.
  - intros -> Hmax Hfit. unfold result.
    rewrite (ListVolumes_page B c s s1 disks token total maxEntries Hget Hstart)
      by (fold total; lia).
    fold total.
    assert (forall stop, total <= stop -> pageOf disks total stop = []) as Hpage.
    { intros stop Hstop. unfold pageOf. rewrite drop_ge by (unfold total; lia).
      apply take_nil. }
    destruct (maxEntries =? 0) eqn:E0; cbn [orb].
    + rewrite Z.ltb_irrefl, Hpage by lia. reflexivity.
    + apply Z.eqb_neq in E0. destruct (total <=? maxEntries).
      * rewrite Z.ltb_irrefl, Hpage by lia. reflexivity.
      * rewrite Hpage by lia.
        assert ((total + maxEntries - 1 <? total) = false) as -> by (apply Z.ltb_ge; lia).
        reflexivity.
Qed.

(** The page for a positive [maxEntries], in closed form. *)
Lemma ListVolumes_next_page
    (B : Backend) (c : controller) (s s1 : State B)
    (disks : list FirstClassDiskInfo) (token : string) (start maxEntries : Z) :
  let total := Z.of_nat (length disks) in
  handle B getAllFCDs s = (disks, s1) ->
  startOf token = Some start ->
  0 <= start <= total ->
  0 < maxEntries ->
  total + maxEntries <= maxInt64 ->
  run B (ListVolumes c {| MaxEntries := maxEntries; StartingToken := token |}) s =
    (Ok {| Entries :=
             map entryOf (take (Z.to_nat maxEntries) (drop (Z.to_nat start) disks));
           NextToken :=
             if (maxEntries <? total) && (start + maxEntries <=? total)
             then Itoa (start + maxEntries)
             else EmptyString |},
     s1, [Ev getAllFCDs disks]).
Proof.
  intros total Hget Hstart Hrange Hmax Hfit.
  rewrite (ListVolumes_page B c s s1 disks token start maxEntries Hget Hstart)
    by (fold total; lia).
  fold total.
  assert ((maxEntries =? 0) = false) as -> by (apply Z.eqb_neq; lia). cbn [orb].
  assert (Z.of_nat (length (drop (Z.to_nat start) disks)) = total - start) as Hrest.
  { rewrite length_drop. unfold total. lia. }
  destruct (total <=? maxEntries) eqn:E.
  - apply Z.leb_le in E. rewrite Z.ltb_irrefl.
    assert ((maxEntries <? total) = false) as -> by (apply Z.ltb_ge; lia).
    cbn [andb]. unfold pageOf. rewrite !take_ge by lia. reflexivity.
  - apply Z.leb_gt in E. rewrite (proj2 (Z.ltb_lt _ _) E). cbn [andb].
    unfold pageOf.
    replace (start + maxEntries - 1 + 1 - start) with maxEntries by lia.
    replace (start + maxEntries - 1 + 1) with (start + maxEntries) by lia.
    destruct (start + maxEntries - 1 <? total) eqn:El.
    + apply Z.ltb_lt in El.
      assert ((start + maxEntries <=? total) = true) as -> by (apply Z.leb_le; lia).
      reflexivity.
    + apply Z.ltb_ge in El.
      assert ((start + maxEntries <=? total) = false) as -> by (apply Z.leb_gt; lia).
      reflexivity.
Qed.

(** X2. For a token that reads as an offset within the list and a
    positive [maxEntries], the page holds the next [maxEntries] disks, or
    all the remaining ones if there are fewer: never more than
    [maxEntries] entries.  A page without a next token ends the list; a
    page with one is full, and its token reads back as the offset of the
    disk after the page. *)
Theorem ListVolumes_page_size
    (B : Backend) (c : controller) (s s1 : State B)
    (disks : list FirstClassDiskInfo) (token : string) (start maxEntries : Z) :
  let total := Z.of_nat (length disks) in
  handle B getAllFCDs s = (disks, s1) ->
  startOf token = Some start ->
  0 <= start <= total ->
  0 < maxEntries ->
  total + maxEntries <= maxInt64 ->
  exists resp,
    run B (ListVolumes c {| MaxEntries := maxEntries; StartingToken := token |}) s =
      (Ok resp, s1, [Ev getAllFCDs disks]) /\
    Entries resp = map entryOf (take (Z.to_nat maxEntries) (drop (Z.to_nat start) disks)) /\
    Z.of_nat (length (Entries resp)) = Z.min maxEntries (total - start) /\
    (NextToken resp = EmptyString ->
     Entries resp = map entryOf (drop (Z.to_nat start) disks)) /\
    (NextToken resp <> EmptyString ->
     Z.of_nat (length (Entries resp)) = maxEntries /\
     startOf (NextToken resp) = Some (start + maxEntries)).
Proof.
  intros total Hget Hstart Hrange Hmax Hfit.
  eexists. split.
  { exact (ListVolumes_next_page B c s s1 disks token start maxEntries
             Hget Hstart Hrange Hmax Hfit). }
  fold total. cbn [Entries NextToken].
  assert (Z.of_nat (length (drop (Z.to_nat start) disks)) = total - start) as Hrest.
  { rewrite length_drop. unfold total. lia. }
  rewrite length_map, length_take.
  split; [reflexivity | split; [lia |]].
  destruct ((maxEntries <? total) && (start + maxEntries <=? total)) eqn:E.
  - apply andb_true_iff in E as [E1 E2]. apply Z.leb_le in E2. split.
    + intros H. exfalso. exact (Itoa_nonempty _ H).
    + intros _. split; [lia | apply startOf_Itoa; lia].
  - split; [| intros H; contradiction].
    intros _. f_equal. apply take_ge.
    apply andb_false_iff in E as [E | E]; [apply Z.ltb_ge in E | apply Z.leb_gt in E]; lia.
Qed.

(** X3. A negative [maxEntries] is not rejected: with a token that reads
    as an offset within the list the upper slice bound falls below the
    lower one and the handler panics. *)
Theorem ListVolumes_negative_maxEntries_panics
    (B : Backend) (c : controller) (s : State B) (token : string) (start maxEntries : Z) :
  startOf token = Some start ->
  0 <= start <= Z.of_nat (length (handle B getAllFCDs s).1) ->
  Z.of_nat (length (handle B getAllFCDs s).1) <= maxInt64 ->
  - 2 ^ 31 <= maxEntries < 0 ->
  outcome (run B (ListVolumes c {| MaxEntries := maxEntries; StartingToken := token |}) s)
    = Panics.
Proof.
  intros Hstart Hrange Hfit Hmax. unfold ListVolumes, outcome.
  cbn [mbind Prog_bind bind call run StartingToken MaxEntries].
  destruct (handle B getAllFCDs s) as [disks s1]. simpl fst in Hrange, Hfit.
  rewrite Hstart.
  set (total := Z.of_nat (length disks)) in *.
  assert ((start >? total) = false) as -> by (rewrite Z.gtb_ltb; apply Z.ltb_ge; lia).
  assert (stopOf start maxEntries total = start + maxEntries - 1) as ->.
  { unfold stopOf.
    assert ((maxEntries =? 0) = false) as -> by (apply Z.eqb_neq; lia).
    assert ((total >? maxEntries) = true) as -> by (apply Z.gtb_lt; lia).
    apply wrap64_small. unfold minInt64, maxInt64 in *. lia. }
  assert ((start + maxEntries - 1 >=? total) = false) as ->
    by (rewrite Z.geb_leb; apply Z.leb_gt; lia).
  rewrite wrap64_small by (unfold minInt64, maxInt64 in *; lia).
  unfold slice.
  assert ((start <=? start + maxEntries - 1 + 1) = false) as -> by (apply Z.leb_gt; lia).
  rewrite andb_false_r. reflexivity.
Qed.

(** X4. Over a list of disks that does not change between the calls,
    following the next tokens from the empty token with a positive
    [maxEntries] ends after at most one call more than there are disks,
    and the pages, appended, are the entries of all the disks, each once
    and in the order of the list. *)
Theorem ListVolumes_traversal
    (B : Backend) (c : controller) (inv : State B -> Prop)
    (disks : list FirstClassDiskInfo) (maxEntries : Z) (s : State B) :
  (forall s', inv s' ->
     (handle B getAllFCDs s').1 = disks /\ inv (handle B getAllFCDs s').2) ->
  inv s ->
  0 < maxEntries ->
  Z.of_nat (length disks) + maxEntries <= maxInt64 ->
  listAll B c maxEntries (S (length disks)) EmptyString s = Some (map entryOf disks).
Proof.
  intros Hstable Hinv Hmax Hfit.
  set (total := Z.of_nat (length disks)) in *.
  assert (forall fuel token start s',
            inv s' -> startOf token = Some start -> 0 <= start <= total ->
            (Z.to_nat (total - start) < fuel)%nat ->
            listAll B c maxEntries fuel token s' =
              Some (map entryOf (drop (Z.to_nat start) disks))) as Hloop.
  { induction fuel as [| fuel IH]; intros token start s' Hs' Hstart Hrange Hfuel; [lia |].
    destruct (Hstable s' Hs') as [Hdisks Hnext].
    assert (handle B getAllFCDs s' = (disks, (handle B getAllFCDs s').2)) as Hget
      by (rewrite <- Hdisks; apply surjective_pairing).
    cbn [listAll].
    rewrite (ListVolumes_next_page B c s' _ disks token start maxEntries
               Hget Hstart Hrange Hmax Hfit).
    fold total. cbn [NextToken Entries].
    destruct ((maxEntries <? total) && (start + maxEntries <=? total)) eqn:E.
    - apply andb_true_iff in E as [E1 E2]. apply Z.leb_le in E2.
      rewrite (proj2 (String.eqb_neq _ _) (Itoa_nonempty _)).
      rewrite (IH (Itoa (start + maxEntries)) (start + maxEntries) _ Hnext)
        by (try apply startOf_Itoa; lia).
      cbn [option_map]. f_equal. rewrite <- map_app. f_equal.
      replace (Z.to_nat (start + maxEntries))
        with (Z.to_nat start + Z.to_nat maxEntries)%nat by lia.
      rewrite <- drop_drop. apply take_drop.
    - cbn [String.eqb]. f_equal. f_equal. apply take_ge. rewrite length_drop.
      apply andb_false_iff in E as [E | E];
        [apply Z.ltb_ge in E | apply Z.leb_gt in E]; unfold total in *; lia. }
  rewrite (Hloop (S (length disks)) EmptyString 0 s Hinv eq_refl) by (unfold total; lia).
  reflexivity.
Qed.

End MorePagination.

(** ** The calls a handler can issue *)

Section CallDiscipline.
Context `{K : PackageConsts}.

Lemma Bounded_run (B : Backend) {A} (f : Call -> bool) (n : nat) (p : Prog A) (s : State B) :
  Bounded f n p -> (count f (trace (run B p s)) <= n)%nat.
Proof.
  revert n s. induction p as [a | c k IH]; intros n s Hp; [cbn; lia |].
  cbn [run]. destruct (handle B c s) as [r s1].
  destruct (run B (k r) s1) as [[a s2] tr] eqn:E.
  unfold trace, count. cbn [snd]. cbn [Bounded] in Hp.
  destruct (f c) eqn:Ef.
  - rewrite filter_cons_True by (cbn; exact Ef).
    destruct n as [| m]; [contradiction |].
    specialize (IH r m s1 (Hp r)). rewrite E in IH. unfold trace, count in IH.
    cbn [snd length] in *. lia.
  - rewrite filter_cons_False by (cbn; rewrite Ef; discriminate).
    specialize (IH r n s1 (Hp r)). rewrite E in IH. exact IH.
Qed.

Lemma Bounded_bind {A C} (f : Call -> bool) (n : nat) (p : Prog A) (g : A -> Prog C) :
  Bounded f 0 p -> (forall a, Bounded f n (g a)) -> Bounded f n (p ≫= g).
Proof.
  intros Hp Hg. unfold mbind, Prog_bind.
  induction p as [a | c k IH]; cbn [bind Bounded]; [apply Hg |].
  cbn [Bounded] in Hp. destruct (f c); [contradiction |].
  intros r. apply IH, Hp.
Qed.

Lemma rangeTopologies_Bounded (f : Call -> bool) (c : controller) segs d e :
  (forall call, isZoneCall call = true -> f call = false) ->
  Bounded f 0 (rangeTopologies c segs d e).
Proof.
  intros Hf. revert d e. induction segs as [| t rest IH]; intros d e; [exact I |].
  cbn [rangeTopologies mbind Prog_bind bind call Bounded].
  rewrite (Hf (segmentCall c t) eq_refl).
  intros [err | di]; [apply IH | exact I].
Qed.

Lemma CreateVolume_zone_Bounded (f : Call -> bool) (c : controller) a zone region :
  (forall call, isZoneCall call = true -> f call = false) ->
  Bounded f 0 (CreateVolume_zone c a zone region).
Proof.
  intros Hf.
  assert (Bounded f 0 (r ← call (zoneCall c zone region);
                       match r with
                       | inr discoveryInfo => mret (Some discoveryInfo, None)
                       | inl err => mret (None, Some err)
                       end)) as Hlegacy.
  { cbn [mbind Prog_bind bind call Bounded]. rewrite (Hf (zoneCall c zone region) eq_refl).
    intros [err | di]; exact I. }
  unfold CreateVolume_zone. destruct a as [a |]; [| exact Hlegacy].
  destruct (notNil (Requisite a) || notNil (Preferred a)); [| exact Hlegacy].
  destruct (notNil (Requisite a)); apply rangeTopologies_Bounded, Hf.
Qed.

Ltac bounded_step :=
  first
    [ exact I
    | progress cbn [mbind mret Prog_bind Prog_ret bind call Bounded
                    isCreate isDelete isAttach isDetach isMutation]
    | match goal with
      | |- forall _ : sum _ _, _ => intros [? | ?]
      | |- forall _ : option _, _ => intros [? |]
      | |- forall _, _ => intros ?
      | |- context [if ?b then _ else _] => destruct b
      | |- context [match ?x with _ => _ end] => destruct x
      end ].

Lemma CreateVolume_Bounded (f : Call -> bool) (n : nat) (c : controller) req :
  (forall call, isZoneCall call = true -> f call = false) ->
  (forall di a b v z,
     Bounded f n (CreateVolume_disk di a b v z)) ->
  Bounded f n (CreateVolume c req).
Proof.
  intros Hf Hdisk. unfold CreateVolume.
  destruct (GetParameters req) as [params |]; [| exact I].
  destruct (len (GetName req) =? 0); [exact I |].
  destruct (len (mapIndex params AttributeFirstClassDiskParentType) =? 0); [exact I |].
  destruct (len (mapIndex params AttributeFirstClassDiskParentName) =? 0); [exact I |].
  apply Bounded_bind; [apply CreateVolume_zone_Bounded, Hf |].
  intros [d e]. destruct e; [exact I |]. destruct d; [apply Hdisk | exact I].
Qed.

(** X5. Whatever the backend answers, [CreateVolume] issues at most one
    create call and no delete, attach or detach call; [DeleteVolume] at
    most one delete call and no create, attach or detach call;
    [ControllerPublishVolume] at most one attach call and
    [ControllerUnpublishVolume] at most one detach call, and neither any
    other call that changes the backend; [ListVolumes] none at all. *)
Theorem handlers_call_discipline (B : Backend) (c : controller) (s : State B) :
  (forall req,
     let tr := trace (run B (CreateVolume c req) s) in
     (count isCreate tr <= 1)%nat /\ count isDelete tr = 0%nat /\
     count isAttach tr = 0%nat /\ count isDetach tr = 0%nat) /\
  (forall req,
     let tr := trace (run B (DeleteVolume c req) s) in
     (count isDelete tr <= 1)%nat /\ count isCreate tr = 0%nat /\
     count isAttach tr = 0%nat /\ count isDetach tr = 0%nat) /\
  (forall req,
     let tr := trace (run B (ControllerPublishVolume c req) s) in
     (count isAttach tr <= 1)%nat /\ count isCreate tr = 0%nat /\
     count isDelete tr = 0%nat /\ count isDetach tr = 0%nat) /\
  (forall req,
     let tr := trace (run B (ControllerUnpublishVolume c req) s) in
     (count isDetach tr <= 1)%nat /\ count isCreate tr = 0%nat /\
     count isDelete tr = 0%nat /\ count isAttach tr = 0%nat) /\
  (forall req, count isMutation (trace (run B (ListVolumes c req) s)) = 0%nat).
Proof.
  assert (forall A (p : Prog A) f, Bounded f 0 p ->
            count f (trace (run B p s)) = 0%nat) as Hzero.
  { intros A p f Hp. pose proof (Bounded_run B f 0 p s Hp). lia. }
  split; [| split; [| split; [| split]]].
  - intros req tr. unfold tr.
    split; [apply Bounded_run | split; [| split]; apply Hzero];
      (apply CreateVolume_Bounded;
       [ intros [] H; (discriminate H || reflexivity)
       | intros; unfold CreateVolume_disk; repeat bounded_step ]).
  - intros req tr. unfold tr.
    split; [apply Bounded_run | split; [| split]; apply Hzero];
      unfold DeleteVolume; repeat bounded_step.
  - intros req tr. unfold tr.
    split; [apply Bounded_run | split; [| split]; apply Hzero];
      unfold ControllerPublishVolume; repeat bounded_step.
  - intros req tr. unfold tr.
    split; [apply Bounded_run | split; [| split]; apply Hzero];
      unfold ControllerUnpublishVolume; repeat bounded_step.
  - intros req. apply Hzero. unfold ListVolumes. repeat bounded_step.
Qed.

End CallDiscipline.

(** ** The errors a handler can return *)

Section ErrorClasses.
Context `{K : PackageConsts}.

Lemma Leaves_bind_post {A C} (Q : A -> Prop) (P : C -> Prop) (p : Prog A) (f : A -> Prog C) :
  Leaves Q p -> (forall a, Q a -> Leaves P (f a)) -> Leaves P (p ≫= f).
Proof.
  intros Hp Hf. unfold mbind, Prog_bind.
  induction p as [a | c k IH]; cbn [bind Leaves] in *; [apply Hf, Hp |].
  intros r. apply IH, Hp.
Qed.

Lemma rangeTopologies_resolved_or_failed (c : controller) segs d e :
  segs <> [] \/ is_Some e \/ is_Some d ->
  Leaves (fun r => is_Some r.2 \/ is_Some r.1) (rangeTopologies c segs d e).
Proof.
  revert d e. induction segs as [| t rest IH]; intros d e Hinit.
  - cbn. destruct Hinit as [H | H]; [contradiction | exact H].
  - cbn [rangeTopologies mbind Prog_bind bind call Leaves].
    intros [err | di]; [apply IH | cbn]; eauto.
Qed.

Lemma CreateVolume_zone_resolved_or_failed (c : controller) a zone region :
  rangesOverNothing a = false ->
  Leaves (fun r => is_Some r.2 \/ is_Some r.1) (CreateVolume_zone c a zone region).
Proof.
  intros Hsome.
  assert (Leaves (fun r : option ZoneDiscoveryInfo * option error =>
                    is_Some r.2 \/ is_Some r.1)
            (r ← call (zoneCall c zone region);
             match r with
             | inr discoveryInfo => mret (Some discoveryInfo, None)
             | inl err => mret (None, Some err)
             end)) as Hlegacy.
  { cbn [mbind Prog_bind bind call Leaves]. intros [err | di]; cbn; eauto. }
  destruct a as [a |]; [| exact Hlegacy]. cbn [rangesOverNothing] in Hsome.
  destruct (hasTopology a) eqn:E.
  - rewrite (CreateVolume_zone_candidates c a zone region E).
    apply rangeTopologies_resolved_or_failed. left.
    destruct (candidates a); [discriminate Hsome | discriminate].
  - unfold CreateVolume_zone. unfold hasTopology in E. rewrite E. exact Hlegacy.
Qed.

Lemma CreateVolume_zone_nothing (B : Backend) (c : controller) a zone region (s : State B) :
  rangesOverNothing a = true ->
  run B (CreateVolume_zone c a zone region) s = ((None, None), s, []).
Proof.
  destruct a as [a |]; [| discriminate]. cbn [rangesOverNothing].
  destruct (hasTopology a) eqn:E; [| discriminate].
  rewrite (CreateVolume_zone_candidates c a zone region E).
  destruct (candidates a); [reflexivity | discriminate].
Qed.

Ltac classify :=
  first [ left; eexists; reflexivity
        | right; eexists; split; [| reflexivity]; cbn; auto ].

(** X6. [DeleteVolume] never panics and never returns a bare error of a
    collaborator: it returns a response or an [Internal] error.
    [CreateVolume] returns a response, or an error of code [Internal] or
    [AlreadyExists], unless the request carries a topology requirement
    with a list that is not nil and the list the resolution ranges over
    has no segment; a valid request of that kind makes it panic before
    any call (the nil dereference of line 186).  [ListVolumes] returns a
    response or an [Internal] error, or panics. *)
Theorem create_delete_list_errors_are_internal
    (B : Backend) (c : controller) (s : State B) :
  (forall req,
     rangesOverNothing (GetAccessibilityRequirements req) = false ->
     classified [Internal; AlreadyExists] (outcome (run B (CreateVolume c req) s))) /\
  (forall req params,
     validCreate req params ->
     rangesOverNothing (GetAccessibilityRequirements req) = true ->
     run B (CreateVolume c req) s = (Panics, s, [])) /\
  (forall req, classified [Internal] (outcome (run B (DeleteVolume c req) s))) /\
  (forall req,
     classified [Internal] (outcome (run B (ListVolumes c req) s)) \/
     outcome (run B (ListVolumes c req) s) = Panics).
Proof.
  split; [| split; [| split]].
  - intros req Hsome. apply Leaves_run. unfold CreateVolume.
    destruct (GetParameters req) as [params |]; [| cbn; classify].
    destruct (len (GetName req) =? 0); [cbn; classify |].
    destruct (len (mapIndex params AttributeFirstClassDiskParentType) =? 0);
      [cbn; classify |].
    destruct (len (mapIndex params AttributeFirstClassDiskParentName) =? 0);
      [cbn; classify |].
    apply (Leaves_bind_post _ _ _ _ (CreateVolume_zone_resolved_or_failed c _ _ _ Hsome)).
    intros [d e] Hres. destruct e as [err |]; [cbn; classify |].
    destruct d as [di |].
    + unfold CreateVolume_disk. cbn [mbind Prog_bind bind call Leaves].
      intros [e | d].
      * intros [err |]; [cbn; classify |].
        intros [e' | d]; cbn; classify.
      * destruct (negb _); cbn; classify.
    + exfalso. cbn in Hres. destruct Hres as [[x Hx] | [x Hx]]; discriminate.
  - intros req params Hvalid Hnothing.
    rewrite (CreateVolume_run B c req params s Hvalid).
    rewrite (CreateVolume_zone_nothing B c _ _ _ s Hnothing). reflexivity.
  - intros req. apply Leaves_run. unfold DeleteVolume.
    destruct (len (dv_VolumeId req) =? 0); [cbn; classify |].
    cbn [mbind Prog_bind bind call Leaves].
    intros [e | di]; [destruct e; cbn; classify |].
    intros [err |]; cbn; classify.
  - intros req.
    apply (Leaves_run B (fun o => classified [Internal] o \/ o = Panics)).
    unfold ListVolumes. cbn [mbind Prog_bind bind call Leaves]. intros disks.
    destruct (startOf (StartingToken req)) as [start |]; [| cbn; left; classify].
    destruct (start >? _); [cbn; left; classify |].
    destruct (if _ >=? _ then _ else _); cbn; [left; classify | right; reflexivity].
Qed.

(** X7. When the zone resolution of a valid request ends with an error,
    [CreateVolume] returns an [Internal] error after the resolution calls
    alone: no disk is looked up or created.  In particular, without a
    topology requirement, or with one whose two lists are nil, the
    failure of the one call with the zone and region parameters ends the
    request. *)
Theorem CreateVolume_zone_failure
    (B : Backend) (c : controller) req params (s0 : State B) :
  validCreate req params ->
  let zone := mapIndex params AttributeFirstClassDiskZone in
  let region := mapIndex params AttributeFirstClassDiskRegion in
  (forall d e s1 tz,
     run B (CreateVolume_zone c (GetAccessibilityRequirements req) zone region) s0 =
       ((d, Some e), s1, tz) ->
     run B (CreateVolume c req) s0 = (Err (status_Errorf Internal), s1, tz) /\
     Forall (fun ev => isZoneCall (ev_call ev) = true) tz) /\
  (forall e s1,
     GetAccessibilityRequirements req = None \/
     (exists a, GetAccessibilityRequirements req = Some a /\
        Requisite a = None /\ Preferred a = None) ->
     handle B (zoneCall c zone region) s0 = (inl e, s1) ->
     run B (CreateVolume c req) s0 =
       (Err (status_Errorf Internal), s1, [Ev (zoneCall c zone region) (inl e)])).
Proof.
  intros Hvalid zone region.
  assert (forall d e s1 tz,
            run B (CreateVolume_zone c (GetAccessibilityRequirements req) zone region) s0 =
              ((d, Some e), s1, tz) ->
            run B (CreateVolume c req) s0 = (Err (status_Errorf Internal), s1, tz)) as Hfail.
  { intros d e s1 tz Hzone.
    rewrite (CreateVolume_run B c req params s0 Hvalid). fold zone region.
    rewrite Hzone. reflexivity. }
  split.
  - intros d e s1 tz Hzone. split; [exact (Hfail d e s1 tz Hzone) |].
    pose proof (CreateVolume_zone_calls B c (GetAccessibilityRequirements req)
                  zone region s0) as Hall.
    rewrite Hzone in Hall. exact Hall.
  - intros e s1 Hlegacy Hcall. apply (Hfail None e).
    rewrite CreateVolume_zone_legacy by exact Hlegacy. rewrite Hcall. reflexivity.
Qed.

End ErrorClasses.

(** ** Attach, detach and delete *)

Section AttachAndDelete.
Context `{K : PackageConsts}.

(** X8. Once the volume id is resolved, [ControllerPublishVolume] looks
    the node up by name in the datacenter of the disk; an error of that
    lookup, or of the attach call, is returned as it is (not as a status
    error).  A disk whose backing is not file-backed makes the handler
    panic after the node lookup, before any attach call.  Otherwise the
    file of the disk is attached with the PVSCSI controller type, and the
    publish context carries the identifier the attach call returned
    under the page-83 key. *)
Theorem ControllerPublishVolume_attaches_backing_file
    (B : Backend) (c : controller) (volumeId nodeId : string) (s s1 : State B) di :
  volumeId <> EmptyString -> nodeId <> EmptyString ->
  let resolve := WhichVCandDCByFCDId volumeId in
  let findVM := GetVMByDNSName (fdi_DataCenter di) nodeId in
  let result :=
    run B (ControllerPublishVolume c {| cp_VolumeId := volumeId; cp_NodeId := nodeId |}) s in
  handle B resolve s = (inr di, s1) ->
  (forall e s2,
     handle B findVM s1 = (inl e, s2) ->
     result = (Err e, s2, [Ev resolve (inr di); Ev findVM (inl e)])) /\
  (forall vm s2,
     handle B findVM s1 = (inr vm, s2) ->
     filePathOf (FCDInfo di) = None ->
     result = (Panics, s2, [Ev resolve (inr di); Ev findVM (inr vm)])) /\
  (forall vm s2 filePath r s3,
     handle B findVM s1 = (inr vm, s2) ->
     Config_Backing (FCDInfo di) = BaseConfigInfoDiskFileBackingInfo filePath ->
     let attach :=
       AttachDisk vm filePath {| SCSIControllerType := PVSCSIControllerType |} in
     handle B attach s2 = (r, s3) ->
     exists o,
       result = (o, s3, [Ev resolve (inr di); Ev findVM (inr vm); Ev attach r]) /\
       match r with
       | inl e => o = Err e
       | inr diskUUID =>
           exists resp, o = Ok resp /\
             PublishContext resp !! AttributeFirstClassDiskPage83Data = Some diskUUID
       end).
Proof.
  intros Hv Hn resolve findVM result Hres.
  pose (continue :=
          (r ← call findVM;
           match r with
           | inl err => mret (Err err)
           | inr vm =>
               match filePathOf (FCDInfo di) with
               | None => mret Panics
               | Some filePath =>
                   r ← call (AttachDisk vm filePath
                               {| SCSIControllerType := PVSCSIControllerType |});
                   match r with
                   | inl err => mret (Err err)
                   | inr diskUUID =>
                       mret (Ok {| PublishContext :=
                                     <[AttributeFirstClassDiskPage83Data := diskUUID]>
                                       (attributes (fdi_VcServer di)
                                          (dc_Name (fdi_DataCenter di)) (FCDInfo di)) |})
                   end
               end
           end) : Prog (Outcome ControllerPublishVolumeResponse)).
  assert (result =
            let '(o, s2, tr) := run B continue s1 in
            (o, s2, Ev resolve (inr di) :: tr)) as Hrun.
  { unfold result, ControllerPublishVolume. cbn [cp_VolumeId cp_NodeId].
    rewrite (len_nonzero _ Hv), (len_nonzero _ Hn).
    cbn [mbind Prog_bind bind call run]. fold resolve. rewrite Hres. reflexivity. }
  unfold continue in Hrun.
  cbn [mbind Prog_bind bind call run] in Hrun.
  split; [| split].
  - intros e s2 Hvm. rewrite Hrun, Hvm. reflexivity.
  - intros vm s2 Hvm Hback. rewrite Hrun, Hvm, Hback. reflexivity.
  - intros vm s2 filePath r s3 Hvm Hback attach Hattach.
    assert (filePathOf (FCDInfo di) = Some filePath) as Hpath
      by (unfold filePathOf; rewrite Hback; reflexivity).
    rewrite Hrun, Hvm, Hpath. cbn [mbind Prog_bind bind call run]. fold attach.
    rewrite Hattach. destruct r as [e | diskUUID].
    + eexists. split; reflexivity.
    + eexists. split; [reflexivity |]. eexists. split; [reflexivity |].
      cbn [PublishContext]. apply lookup_insert_eq.
Qed.

(** X9. [ControllerUnpublishVolume] turns every failure of the id
    resolution, [ErrNoDiskIDFound] included, into an [Internal] error.
    Once the id is resolved it looks the node up; an error of that
    lookup, or of the detach call, is returned as it is; a disk that is
    not file-backed makes the handler panic before any detach call;
    otherwise the file of the disk is detached from the node and the
    response is empty. *)
Theorem ControllerUnpublishVolume_detaches_backing_file
    (B : Backend) (c : controller) (volumeId nodeId : string) (s s1 : State B) :
  volumeId <> EmptyString -> nodeId <> EmptyString ->
  let resolve := WhichVCandDCByFCDId volumeId in
  let result :=
    run B (ControllerUnpublishVolume c {| cu_VolumeId := volumeId; cu_NodeId := nodeId |})
      s in
  (forall e,
     handle B resolve s = (inl e, s1) ->
     result = (Err (status_Errorf Internal), s1, [Ev resolve (inl e)])) /\
  (forall di e s2,
     handle B resolve s = (inr di, s1) ->
     let findVM := GetVMByDNSName (fdi_DataCenter di) nodeId in
     handle B findVM s1 = (inl e, s2) ->
     result = (Err e, s2, [Ev resolve (inr di); Ev findVM (inl e)])) /\
  (forall di vm s2,
     handle B resolve s = (inr di, s1) ->
     let findVM := GetVMByDNSName (fdi_DataCenter di) nodeId in
     handle B findVM s1 = (inr vm, s2) ->
     filePathOf (FCDInfo di) = None ->
     result = (Panics, s2, [Ev resolve (inr di); Ev findVM (inr vm)])) /\
  (forall di vm s2 filePath r s3,
     handle B resolve s = (inr di, s1) ->
     let findVM := GetVMByDNSName (fdi_DataCenter di) nodeId in
     handle B findVM s1 = (inr vm, s2) ->
     Config_Backing (FCDInfo di) = BaseConfigInfoDiskFileBackingInfo filePath ->
     handle B (DetachDisk vm filePath) s2 = (r, s3) ->
     result =
       (match r with
        | Some e => Err e
        | None => Ok Build_ControllerUnpublishVolumeResponse
        end, s3,
        [Ev resolve (inr di); Ev findVM (inr vm); Ev (DetachDisk vm filePath) r])).
Proof.
  intros Hv Hn resolve result.
  assert (result =
            run B
              (r ← call resolve;
               match r with
               | inl _ => mret (Err (status_Errorf Internal))
               | inr discoveryInfo =>
                   r ← call (GetVMByDNSName (fdi_DataCenter discoveryInfo) nodeId);
                   match r with
                   | inl err => mret (Err err)
                   | inr vm =>
                       match filePathOf (FCDInfo discoveryInfo) with
                       | None => mret Panics
                       | Some filePath =>
                           err ← call (DetachDisk vm filePath);
                           match err with
                           | Some err => mret (Err err)
                           | None => mret (Ok Build_ControllerUnpublishVolumeResponse)
                           end
                       end
                   end
               end) s) as Hrun.
  { unfold result, ControllerUnpublishVolume. cbn [cu_VolumeId cu_NodeId].
    rewrite (len_nonzero _ Hv), (len_nonzero _ Hn). reflexivity. }
  cbn [mbind Prog_bind bind call run] in Hrun.
  split; [| split; [| split]].
  - intros e Hres. rewrite Hrun, Hres. reflexivity.
  - intros di e s2 Hres findVM Hvm. rewrite Hrun, Hres.
    cbn [mbind Prog_bind bind call run]. fold findVM. rewrite Hvm. reflexivity.
  - intros di vm s2 Hres findVM Hvm Hback. rewrite Hrun, Hres.
    cbn [mbind Prog_bind bind call run]. fold findVM. rewrite Hvm, Hback. reflexivity.
  - intros di vm s2 filePath r s3 Hres findVM Hvm Hback Hdetach.
    assert (filePathOf (FCDInfo di) = Some filePath) as Hpath
      by (unfold filePathOf; rewrite Hback; reflexivity).
    rewrite Hrun, Hres. cbn [mbind Prog_bind bind call run]. fold findVM.
    rewrite Hvm, Hpath. cbn [mbind Prog_bind bind call run]. rewrite Hdetach.
    destruct r; reflexivity.
Qed.

(** X10. With pairwise distinct attribute keys and distinct type names,
    for a disk whose parent type is one of the two type names,
    [DeleteVolume] addresses the delete call with the parent name and
    the parent type that the attribute map of the disk reports; the
    result is an empty response if the delete call succeeds and an
    [Internal] error if it fails. *)
Theorem DeleteVolume_addresses_the_reported_pool
    (B : Backend) (c : controller) (volumeId : string) (s s1 : State B) di :
  NoDup attributeKeys ->
  TypeDatastore <> TypeDatastoreCluster ->
  volumeId <> EmptyString ->
  let resolve := WhichVCandDCByFCDId volumeId in
  let fcd := FCDInfo di in
  let reported := attributes (fdi_VcServer di) (dc_Name (fdi_DataCenter di)) fcd in
  handle B resolve s = (inr di, s1) ->
  ParentType fcd = TypeDatastore \/ ParentType fcd = TypeDatastoreCluster ->
  exists pool,
    reported !! AttributeFirstClassDiskParentName = Some pool /\
    reported !! AttributeFirstClassDiskParentType = Some (ParentType fcd) /\
    let delete := DeleteFirstClassDisk (fdi_DataCenter di) pool (ParentType fcd) volumeId in
    run B (DeleteVolume c {| dv_VolumeId := volumeId |}) s =
      (match (handle B delete s1).1 with
       | None => Ok Build_DeleteVolumeResponse
       | Some _ => Err (status_Errorf Internal)
       end, (handle B delete s1).2,
       [Ev resolve (inr di); Ev delete (handle B delete s1).1]).
Proof.
  intros Hkeys Hdistinct Hv resolve fcd reported Hres Htype.
  unfold attributeKeys, requiredKeys in Hkeys. cbn [app] in Hkeys.
  rewrite !NoDup_cons, !not_elem_of_cons in Hkeys. destruct_and!.
  set (pool := if String.eqb (ParentType fcd) TypeDatastore
               then DatastoreInfo_Info_Name fcd
               else StoragePodInfo_Summary_Name fcd).
  exists pool.
  assert (reported !! AttributeFirstClassDiskParentName = Some pool /\
          reported !! AttributeFirstClassDiskParentType = Some (ParentType fcd)) as [Hn Ht].
  { unfold reported, attributes, pool.
    destruct Htype as [Htype | Htype]; rewrite Htype.
    - rewrite String.eqb_refl, (proj2 (String.eqb_neq _ _) Hdistinct).
      split; simplify_map_eq; reflexivity.
    - rewrite String.eqb_refl.
      rewrite (proj2 (String.eqb_neq _ _) (not_eq_sym Hdistinct)).
      split; simplify_map_eq; reflexivity. }
  split; [exact Hn | split; [exact Ht |]].
  intros delete. unfold DeleteVolume. cbn [dv_VolumeId].
  rewrite (len_nonzero _ Hv). cbn [mbind Prog_bind bind call run].
  fold resolve. rewrite Hres. cbn [mbind Prog_bind bind call run].
  fold fcd pool delete. destruct (handle B delete s1) as [[err |] s2]; reflexivity.
Qed.

(** X11. The capacity in bytes of a response is the capacity of the disk
    in MB times 2^20, as long as that fits 64 bits.  For a disk of the
    requested size it is 10 GiB when the request has no capacity range;
    for a required size of [b > 0] bytes it is a whole number of GiB, at
    least [b] and less than [b] plus one GiB.  The limit of the range is
    not consulted: with a limit equal to a required size that is not a
    whole number of GiB, the capacity returned exceeds the limit. *)
Theorem CreateVolume_response_capacity (discoveryInfo : ZoneDiscoveryInfo)
    (req : CreateVolumeRequest) (d : FirstClassDiskInfo) :
  let bytes := CapacityBytes (cv_Volume (CreateVolume_response discoveryInfo d)) in
  (- 2 ^ 43 <= Config_CapacityInMB d < 2 ^ 43 ->
   bytes = Config_CapacityInMB d * MbInBytes) /\
  (Config_CapacityInMB d = volSizeMB req ->
   (GetCapacityRange req = None -> bytes = 10 * GbInBytes) /\
   (forall cr, GetCapacityRange req = Some cr ->
      0 < RequiredBytes cr <= maxInt64 - GbInBytes ->
      RequiredBytes cr <= bytes < RequiredBytes cr + GbInBytes /\
      bytes mod GbInBytes = 0 /\
      (RequiredBytes cr mod GbInBytes <> 0 -> LimitBytes cr = RequiredBytes cr ->
       LimitBytes cr < bytes))).
Proof.
  intros bytes. unfold bytes, CreateVolume_response, volumeOf. cbn [cv_Volume CapacityBytes].
  split.
  - intros Hcap. apply wrap64_small. unfold minInt64, maxInt64, MbInBytes. lia.
  - intros ->. split.
    + intros Hnone. unfold volSizeMB, volSizeBytes. rewrite Hnone. reflexivity.
    + intros cr Hcr Hb.
      assert (exists n, volSizeMB req = n * 1024 /\
                (n - 1) * GbInBytes < RequiredBytes cr <= n * GbInBytes)
        as (n & -> & Hn).
      { unfold volSizeMB, volSizeBytes. rewrite Hcr.
        assert ((RequiredBytes cr =? 0) = false) as -> by (apply Z.eqb_neq; lia).
        cbn [negb].
        destruct (RoundUpSize_pos (RequiredBytes cr) GbInBytes) as [Hn Hr];
          [unfold maxInt64, GbInBytes in *; lia | reflexivity |].
        exists (RoundUpSize (RequiredBytes cr) GbInBytes). split; [| exact Hn].
        apply wrap64_small. unfold minInt64, maxInt64, GbInBytes in *. lia. }
      assert (wrap64 (n * 1024 * MbInBytes) = n * GbInBytes) as ->.
      { rewrite wrap64_small; unfold minInt64, maxInt64, MbInBytes, GbInBytes in *; lia. }
      split; [lia | split].
      * apply Z.mod_mul. unfold GbInBytes. lia.
      * intros Hrem ->.
        assert (RequiredBytes cr <> n * GbInBytes); [| lia].
        intros Heq. apply Hrem. rewrite Heq. apply Z.mod_mul. unfold GbInBytes. lia.
Qed.

End AttachAndDelete.

(** ** Start-up *)

Section InitProperties.
Import Startup.
Variable checkAPI : string -> option error.

Lemma rangeVsphereInstanceMap_pass (B : Backend) vcs (s s1 : State B) tr :
  VersionsPass checkAPI B vcs s s1 tr ->
  forall rest,
    run B (rangeVsphereInstanceMap checkAPI (vcs ++ rest)) s =
      let '(e, s2, tr') := run B (rangeVsphereInstanceMap checkAPI rest) s1 in
      (e, s2, tr ++ tr').
Proof.
  induction 1 as [s | vc vcs api s s1 s2 tr Hvc Hok Hrest IH]; intros rest.
  - cbn [app]. destruct (run B _ s) as [[e s2] tr']. reflexivity.
  - cbn [app rangeVsphereInstanceMap run]. rewrite Hvc, Hok, IH.
    destruct (run B (rangeVsphereInstanceMap checkAPI rest) s2) as [[e s3] tr'].
    reflexivity.
Qed.

Lemma run_bind_ret (B : Backend) {A C} (p : Prog A) (f : A -> C) (s : State B) :
  run B (bind p (fun a => Ret (f a))) s =
    let '(a, s1, tr) := run B p s in (f a, s1, tr).
Proof.
  revert s. induction p as [a | c k IH]; intros s; [reflexivity |].
  cbn [bind run]. destruct (handle B c s) as [r s1]. rewrite IH.
  destruct (run B (k r) s1) as [[a s2] tr]. reflexivity.
Qed.

(** X12. [Init] reports a failure to create the Kubernetes client as a
    new error, having called nothing else and leaving the controller
    unassigned.  Otherwise it starts the informer and the connection
    manager, assigns the controller, and reads the API version of the
    vCenters in the order the loop visits them: it returns nil when
    [checkAPI] accepts every version, and at the first vCenter whose
    version cannot be read or is rejected it returns that error as it is
    and asks no further vCenter. *)
Theorem Init_stops_at_the_first_failure (B : Backend) (config : Config) (s : State B) :
  let newClient := NewClient (Global_ServiceAccount config) in
  let result := run B (Init checkAPI config) s in
  (forall e s1,
     handle B newClient s = (Some e, s1) ->
     exists msg,
       result = ((None, Some (errors_New msg)), s1, [Ev newClient (Some e)])) /\
  (forall s1,
     handle B newClient s = (None, s1) ->
     let informer := handle B NewInformer s1 in
     let listener := handle B GetSecretListener informer.2 in
     let connMgr := handle B (NewConnectionManager config) listener.2 in
     let listen := handle B Listen connMgr.2 in
     let started :=
       [Ev newClient None; Ev NewInformer informer.1; Ev GetSecretListener listener.1;
        Ev (NewConnectionManager config) connMgr.1; Ev Listen listen.1] in
     let c := {| cfg_Labels_Zone := Labels_Zone config;
                 cfg_Labels_Region := Labels_Region config |} in
     (forall s2 tr,
        VersionsPass checkAPI B connMgr.1 listen.2 s2 tr ->
        result = ((Some c, None), s2, started ++ tr)) /\
     (forall pre vc post s2 tr r s3 e,
        connMgr.1 = pre ++ vc :: post ->
        VersionsPass checkAPI B pre listen.2 s2 tr ->
        handle B (APIVersion vc) s2 = (r, s3) ->
        r = inl e \/ (exists api, r = inr api /\ checkAPI api = Some e) ->
        result = ((Some c, Some e), s3, started ++ tr ++ [Ev (APIVersion vc) r]))).
Proof.
  intros newClient result. split.
  - intros e s1 Hclient. eexists. unfold result, Init. cbn [run]. fold newClient.
    rewrite Hclient. reflexivity.
  - intros s1 Hclient informer listener connMgr listen started c.
    assert (result =
              let '(e, s2, tr) :=
                run B (rangeVsphereInstanceMap checkAPI connMgr.1) listen.2 in
              ((Some c, e), s2, started ++ tr)) as Hrun.
    { unfold result, Init. cbn [run]. fold newClient. rewrite Hclient.
      subst started c listen connMgr listener informer. cbn [run].
      destruct (handle B NewInformer s1) as [i si]. cbn [fst snd].
      destruct (handle B GetSecretListener si) as [l sl]. cbn [fst snd].
      destruct (handle B (NewConnectionManager config) sl) as [vcs sc]. cbn [fst snd].
      destruct (handle B Listen sc) as [u su]. cbn [fst snd].
      rewrite run_bind_ret.
      destruct (run B (rangeVsphereInstanceMap checkAPI vcs) su) as [[e s2] tr].
      reflexivity. }
    split.
    + intros s2 tr Hpass. rewrite Hrun.
      pose proof (rangeVsphereInstanceMap_pass B _ _ _ _ Hpass []) as Hloop.
      rewrite app_nil_r in Hloop. rewrite Hloop. cbn. rewrite app_nil_r. reflexivity.
    + intros pre vc post s2 tr r s3 e Hvcs Hpass Hvc Hfail. rewrite Hrun, Hvcs.
      rewrite (rangeVsphereInstanceMap_pass B _ _ _ _ Hpass (vc :: post)).
      cbn [rangeVsphereInstanceMap run]. rewrite Hvc.
      destruct Hfail as [-> | (api & -> & ->)]; reflexivity.
Qed.

End InitProperties.

(** * The theorems on the sample deployment *)

Section OnTheSampleDeployment.
#[local] Existing Instance Fixture.consts.

Lemma CreateVolume_capacity_arithmetic_witness :
  volSizeMB (Fixture.createReq "pvc-1" "Datastore" 0 None) = 10240 /\
  volSizeMB (Fixture.createReq "pvc-1" "Datastore" 1 None) = 1024 /\
  exists n, volSizeMB (Fixture.createReq "pvc-1" "Datastore" 1610612736 None) = n * 1024 /\
    (n - 1) * GbInBytes < 1610612736 <= n * GbInBytes.
Proof.
  pose (r := fun b => Fixture.createReq "pvc-1" "Datastore" b None).
  split; [| split].
  - exact (proj1 (proj2 (CreateVolume_capacity_arithmetic (r 0))) _ eq_refl eq_refl).
  - exact (proj2 (proj2 (proj2 (CreateVolume_capacity_arithmetic (r 1)))) _ eq_refl eq_refl).
  - apply (proj1 (proj2 (proj2 (CreateVolume_capacity_arithmetic (r 1610612736))))
             {| RequiredBytes := 1610612736; LimitBytes := 0 |} eq_refl).
    unfold maxInt64. simpl. lia.
Defined.

(** [GetCapacity] returns a nil response, and [CreateSnapshot] returns no
    error at all, on a request of the sample deployment. *)
Lemma stubs_nil_response_counterexample :
  outcome (run Fixture.backend
             (GetCapacity Fixture.ctl {| gc_Parameters := ∅ |}) []) = Returns None None /\
  codeOf (outcome (run Fixture.backend
             (CreateSnapshot Fixture.ctl
                {| cs_SourceVolumeId := "fcd-d0"; cs_Name := "snap" |}) [])) = None.
Proof. split; reflexivity. Qed.

Lemma validation_failures_are_internal_witness :
  CreateVolume Fixture.ctl
    {| cv_Name := "pvc-1"; cv_CapacityRange := None; cv_Parameters := None;
       cv_AccessibilityRequirements := None |} = Ret (Err (status_Errorf Internal)) /\
  DeleteVolume Fixture.ctl {| dv_VolumeId := "" |} = Ret (Err (status_Errorf Internal)) /\
  ControllerPublishVolume Fixture.ctl {| cp_VolumeId := "fcd-d0"; cp_NodeId := "" |} =
    Ret (Err (status_Errorf Internal)) /\
  ControllerUnpublishVolume Fixture.ctl {| cu_VolumeId := ""; cu_NodeId := "node-1" |} =
    Ret (Err (status_Errorf Internal)) /\
  outcome (run Fixture.backend (ListVolumes Fixture.ctl (Fixture.listReq "abc" 3))
             Fixture.tenDisks) = Err (status_Errorf Internal).
Proof.
  destruct (validation_failures_are_internal Fixture.ctl)
    as (Hcreate & Hdelete & Hpublish & Hunpublish & Hlist).
  split; [| split; [| split; [| split]]].
  - apply Hcreate. left. reflexivity.
  - apply Hdelete. reflexivity.
  - apply Hpublish. right. reflexivity.
  - apply Hunpublish. left. reflexivity.
  - apply (Hlist Fixture.backend); [discriminate | reflexivity].
Defined.

(** The code of a validation failure is [Internal], not
    [InvalidArgument]: [CreateVolume] without parameters, and
    [ListVolumes] with the token [abc]. *)
Lemma validation_code_counterexample :
  codeOf (outcome (run Fixture.backend
            (CreateVolume Fixture.ctl
               {| cv_Name := "pvc-1"; cv_CapacityRange := None; cv_Parameters := None;
                  cv_AccessibilityRequirements := None |}) [])) = Some Internal /\
  codeOf (outcome (run Fixture.backend
            (ListVolumes Fixture.ctl (Fixture.listReq "abc" 3)) Fixture.tenDisks))
    = Some Internal.
Proof. split; reflexivity. Qed.

Lemma unresolved_id_delete_succeeds_publish_fails_witness :
  run Fixture.backend (DeleteVolume Fixture.ctl {| dv_VolumeId := "fcd-gone" |})
      Fixture.tenDisks =
    (Ok Build_DeleteVolumeResponse, Fixture.tenDisks,
     [Ev (WhichVCandDCByFCDId "fcd-gone") (inl ErrNoDiskIDFound)]) /\
  run Fixture.backend
      (ControllerPublishVolume Fixture.ctl
         {| cp_VolumeId := "fcd-gone"; cp_NodeId := "node-1" |}) Fixture.tenDisks =
    (Err (status_Errorf Internal), Fixture.tenDisks,
     [Ev (WhichVCandDCByFCDId "fcd-gone") (inl ErrNoDiskIDFound)]).
Proof.
  apply (unresolved_id_delete_succeeds_publish_fails 
           Fixture.backend Fixture.ctl "fcd-gone" "node-1" Fixture.tenDisks
           Fixture.tenDisks).
  - discriminate.
  - discriminate.
  - reflexivity.
Defined.

Lemma ListVolumes_negative_token_panics_witness :
  Atoi "-1" = Some (-1) /\
  outcome (run Fixture.backend (ListVolumes Fixture.ctl (Fixture.listReq "-1" 3))
             Fixture.tenDisks) = Panics.
Proof.
  split; [reflexivity |].
  apply (ListVolumes_negative_token_panics Fixture.backend
           Fixture.ctl Fixture.tenDisks "-1" (-1) 3); [reflexivity | lia].
Defined.

Lemma ListVolumes_pagination_witness :
  run Fixture.backend (ListVolumes Fixture.ctl (Fixture.listReq "3" 3)) Fixture.tenDisks =
    (Ok {| Entries := map entryOf (take 3 (drop 3 Fixture.tenDisks)); NextToken := "6" |},
     Fixture.tenDisks, [Ev getAllFCDs Fixture.tenDisks]) /\
  run Fixture.backend (ListVolumes Fixture.ctl (Fixture.listReq "9" 3)) Fixture.tenDisks =
    (Ok {| Entries := map entryOf (drop 9 Fixture.tenDisks); NextToken := "" |},
     Fixture.tenDisks, [Ev getAllFCDs Fixture.tenDisks]) /\
  run Fixture.backend (ListVolumes Fixture.ctl (Fixture.listReq "7" 0)) Fixture.tenDisks =
    (Ok {| Entries := map entryOf (drop 7 Fixture.tenDisks); NextToken := "" |},
     Fixture.tenDisks, [Ev getAllFCDs Fixture.tenDisks]).
Proof.
  destruct (ListVolumes_pagination Fixture.backend Fixture.ctl
              Fixture.tenDisks Fixture.tenDisks Fixture.tenDisks eq_refl)
    as [Hexample Hrule].
  split; [| split].
  - eapply (Hexample _ _ _ _ _ _ _ _ _ _ eq_refl).
  - eapply (Hexample _ _ _ _ _ _ _ _ _ _ eq_refl).
  - apply (Hrule "7" 7 0); [reflexivity | cbn; lia | lia | cbn; unfold maxInt64; lia].
Defined.

(** Three disks, no token, [maxEntries = 3]: the handler returns the
    three entries and no next token, where the rule as worded gives
    [stop = 2] and the next token ["3"]. *)
Lemma ListVolumes_next_token_counterexample :
  outcome (run Fixture.backend (ListVolumes Fixture.ctl (Fixture.listReq "" 3))
             (take 3 Fixture.tenDisks)) =
    Ok {| Entries := map entryOf (take 3 Fixture.tenDisks); NextToken := "" |} /\
  spec_stopOf 0 3 3 = 2 /\
  spec_nextToken 0 3 3 = "3"%string.
Proof. repeat split. Qed.

Lemma sample_request_valid name parentType bytes topology :
  name <> EmptyString -> parentType <> EmptyString ->
  validCreate (Fixture.createReq name parentType bytes topology)
    (Fixture.createParams parentType).
Proof.
  intros Hname Htype. split; [reflexivity | split; [exact Hname | split]].
  - unfold Fixture.createParams, mapIndex. rewrite lookup_insert_eq. exact Htype.
  - vm_compute. discriminate.
Qed.

Lemma CreateVolume_idempotent_by_name_and_size_witness :
  let req := Fixture.createReq "pvc-1" "Datastore" 1 None in
  let bigger := Fixture.createReq "pvc-1" "Datastore" (2 * GbInBytes) None in
  let disk := Fixture.newDisk "pool1" "Datastore" "pvc-1" 1024 in
  outcome (run Fixture.backend (CreateVolume Fixture.ctl req) []) =
    Ok (CreateVolume_response Fixture.di0 disk) /\
  final (run Fixture.backend (CreateVolume Fixture.ctl req) []) = [disk] /\
  count isCreate (trace (run Fixture.backend (CreateVolume Fixture.ctl req) [])) = 1%nat /\
  outcome (run Fixture.backend (CreateVolume Fixture.ctl req) [disk]) =
    Ok (CreateVolume_response Fixture.di0 disk) /\
  final (run Fixture.backend (CreateVolume Fixture.ctl req) [disk]) = [disk] /\
  count isCreate (trace (run Fixture.backend (CreateVolume Fixture.ctl req) [disk])) = 0%nat /\
  outcome (run Fixture.backend (CreateVolume Fixture.ctl bigger) [disk]) =
    Err (status_Errorf AlreadyExists) /\
  final (run Fixture.backend (CreateVolume Fixture.ctl bigger) [disk]) = [disk].
Proof.
  intros req bigger disk.
  assert (forall bytes, validCreate (Fixture.createReq "pvc-1" "Datastore" bytes None)
            (Fixture.createParams "Datastore")) as Hvalid
    by (intros bytes; apply sample_request_valid; discriminate).
  pose (tz := [Ev (zoneCall Fixture.ctl "zoneB" "regionY") (inr Fixture.di0)]).
  destruct (CreateVolume_idempotent_by_name_and_size Fixture.backend Fixture.ctl req
              (Fixture.createParams "Datastore") [] [] Fixture.di0 tz
              (Hvalid 1) eq_refl) as (_ & _ & _ & Hnew).
  destruct (Hnew (errors_New "no disk found") [] [disk] (inr disk) [disk]
              eq_refl eq_refl eq_refl) as [Hrun1 Hcount1].
  destruct (CreateVolume_idempotent_by_name_and_size Fixture.backend Fixture.ctl req
              (Fixture.createParams "Datastore") [disk] [disk] Fixture.di0 tz
              (Hvalid 1) eq_refl) as (Hsame & _ & _ & _).
  destruct (Hsame disk [disk] eq_refl eq_refl) as (Hrun2 & _ & Hcount2).
  destruct (CreateVolume_idempotent_by_name_and_size Fixture.backend Fixture.ctl bigger
              (Fixture.createParams "Datastore") [disk] [disk] Fixture.di0 tz
              (Hvalid (2 * GbInBytes)) eq_refl) as (_ & Hother & _ & _).
  destruct (Hother disk [disk] eq_refl ltac:(vm_compute; discriminate)) as [Hrun3 _].
  rewrite Hrun1, Hrun2, Hrun3. repeat split; assumption.
Defined.

Lemma zone_resolution_first_success_wins_witness :
  let segA := Fixture.segment "zoneA" "regionX" in
  let segB := Fixture.segment "zoneB" "regionY" in
  let segC := Fixture.segment "zoneC" "regionZ" in
  let a := {| Requisite := Some [segA; segB]; Preferred := Some [segC] |} in
  let b := {| Requisite := None; Preferred := Some [segA; segB] |} in
  let req := Fixture.createReq "pvc-1" "Datastore" 1 (Some a) in
  let calls :=
    [Ev (zoneCall Fixture.ctl "zoneA" "regionX") (inl (errors_New "no matching zone"));
     Ev (zoneCall Fixture.ctl "zoneB" "regionY") (inr Fixture.di0)] in
  run Fixture.backend (CreateVolume_zone Fixture.ctl (Some a) "zoneB" "regionY") [] =
    ((Some Fixture.di0, None), [], calls) /\
  (exists rest,
     trace (run Fixture.backend (CreateVolume Fixture.ctl req) []) =
       calls ++
       Ev (GetFirstClassDisk Fixture.dc0 "pool1" "Datastore" "pvc-1" FindFCDByName)
          (inl (errors_New "no disk found")) :: rest) /\
  count isZoneCall (trace (run Fixture.backend (CreateVolume Fixture.ctl req) [])) = 2%nat /\
  run Fixture.backend (CreateVolume_zone Fixture.ctl (Some b) "zoneB" "regionY") [] =
    ((Some Fixture.di0, None), [], calls).
Proof.
  intros segA segB segC a b req calls.
  assert (ZonesFail Fixture.backend Fixture.ctl [segA] [] []
            [Ev (segmentCall Fixture.ctl segA) (inl (errors_New "no matching zone"))])
    as Hfail.
  { apply (ZonesFail_cons Fixture.backend Fixture.ctl segA []
             (errors_New "no matching zone") [] [] [] []);
      [reflexivity | constructor]. }
  destruct (zone_resolution_first_success_wins Fixture.backend Fixture.ctl req
              (Fixture.createParams "Datastore")
              ltac:(apply sample_request_valid; discriminate)) as (Hfirst & _ & _).
  destruct (Hfirst a [segA] segB [] Fixture.di0 [] [] [] _ eq_refl eq_refl Hfail eq_refl)
    as (Hres & _ & Hrest & Hcount).
  destruct (zone_resolution_first_success_wins Fixture.backend Fixture.ctl
              (Fixture.createReq "pvc-1" "Datastore" 1 (Some b))
              (Fixture.createParams "Datastore")
              ltac:(apply sample_request_valid; discriminate)) as (Hpreferred & _ & _).
  destruct (Hpreferred b [segA] segB [] Fixture.di0 [] [] [] _ eq_refl eq_refl Hfail
              eq_refl) as (Hres' & _).
  split; [exact Hres | split; [exact Hrest | split; [exact Hcount | exact Hres']]].
Defined.

(** C6. A requisite list that is empty without being nil is still the
    list [CreateVolume] ranges over: on the sample deployment the
    preferred segment, which the backend resolves, is never tried, the
    resolution ends without a call, a datacenter or an error, and the
    handler panics on the nil discovery info (line 186) instead of
    trying the preferred segment. *)
Lemma empty_requisite_hides_preferred :
  let segB := Fixture.segment "zoneB" "regionY" in
  let a := {| Requisite := Some []; Preferred := Some [segB] |} in
  let req := Fixture.createReq "pvc-1" "Datastore" 1 (Some a) in
  handle Fixture.backend (segmentCall Fixture.ctl segB) [] = (inr Fixture.di0, []) /\
  run Fixture.backend (CreateVolume_zone Fixture.ctl (Some a) "zoneB" "regionY") [] =
    ((None, None), [], []) /\
  run Fixture.backend (CreateVolume Fixture.ctl req) [] = (Panics, [], []).
Proof. split; [reflexivity | split; reflexivity]. Qed.

Lemma unknown_parent_type_is_datastore_cluster_witness :
  datastoreType (Fixture.createParams "datastore") = "DatastoreCluster"%string /\
  outcome (run Fixture.backend
             (CreateVolume Fixture.ctl (Fixture.createReq "pvc-1" "datastore" 1 None)) []) =
    Ok (CreateVolume_response Fixture.di0
          (Fixture.newDisk "pool1" "DatastoreCluster" "pvc-1" 1024)).
Proof.
  destruct (unknown_parent_type_is_datastore_cluster Fixture.backend Fixture.ctl
              (Fixture.createReq "pvc-1" "datastore" 1 None)
              (Fixture.createParams "datastore") [] [] Fixture.di0
              [Ev (zoneCall Fixture.ctl "zoneB" "regionY") (inr Fixture.di0)]
              ltac:(apply sample_request_valid; discriminate)
              eq_refl) as [_ Hother].
  destruct (Hother ltac:(vm_compute; discriminate)) as [Htype Hrun].
  split; [exact Htype |]. rewrite Hrun. reflexivity.
Defined.

Lemma sample_keys_distinct : NoDup attributeKeys.
Proof. apply (bool_decide_unpack _). vm_compute. exact I. Qed.

Lemma attribute_maps_carry_the_required_keys_witness :
  let pod := Fixture.newDisk "pool1" "DatastoreCluster" "pvc-1" 1024 in
  let ds := Fixture.newDisk "pool1" "Datastore" "pvc-2" 1024 in
  let created := CreateVolume_response Fixture.di0 pod in
  let found := CreateVolume_response Fixture.di0 ds in
  let publish := {| cp_VolumeId := "fcd-pvc-2"; cp_NodeId := "node-1" |} in
  (outcome (run Fixture.backend
              (CreateVolume Fixture.ctl
                 (Fixture.createReq "pvc-1" "DatastoreCluster" 1 None)) [pod; ds]) =
     Ok created /\
   describes (VolumeContext (cv_Volume created)) pod /\
   VolumeContext (cv_Volume created) !! AttributeFirstClassDiskOwningDatastore =
     Some "ds1"%string) /\
  (outcome (run Fixture.backend
              (CreateVolume Fixture.ctl
                 (Fixture.createReq "pvc-2" "Datastore" 1 None)) [pod; ds]) =
     Ok found /\
   describes (VolumeContext (cv_Volume found)) ds /\
   VolumeContext (cv_Volume found) !! AttributeFirstClassDiskOwningDatastore = None) /\
  (exists resp,
     outcome (run Fixture.backend (ControllerPublishVolume Fixture.ctl publish) [pod; ds]) =
       Ok resp /\
     describes (PublishContext resp) ds /\
     PublishContext resp !! AttributeFirstClassDiskOwningDatastore = None) /\
  (exists resp,
     outcome (run Fixture.backend (ListVolumes Fixture.ctl (Fixture.listReq "" 0))
                [pod; ds]) = Ok resp /\
     Forall2 entryDescribes (Entries resp) [pod; ds]).
Proof.
  intros pod ds created found publish.
  destruct (attribute_maps_carry_the_required_keys sample_keys_distinct
              Fixture.backend Fixture.ctl [pod; ds]) as (Hcreate & Hpublish & Hlist).
  split; [| split; [| split]].
  - destruct (Hcreate (Fixture.createReq "pvc-1" "DatastoreCluster" 1 None) created
                _ _ eq_refl) as (fcd & Hlast & _ & Hdesc).
    injection Hlast as <-.
    split; [reflexivity | split; [exact Hdesc | reflexivity]].
  - destruct (Hcreate (Fixture.createReq "pvc-2" "Datastore" 1 None) found
                _ _ eq_refl) as (fcd & Hlast & _ & Hdesc).
    injection Hlast as <-.
    split; [reflexivity | split; [exact Hdesc | reflexivity]].
  - eexists. split; [reflexivity |].
    destruct (Hpublish publish _ _ _ eq_refl) as (fcd & Hone & Hdesc).
    injection Hone as <-.
    split; [exact Hdesc | reflexivity].
  - eexists. split; [reflexivity |].
    destruct (Hlist (Fixture.listReq "" 0) _ _ _ eq_refl) as (start & Hstart & Hall).
    injection Hstart as <-. exact Hall.
Defined.

Lemma ListVolumes_start_at_or_beyond_end_witness :
  run Fixture.backend (ListVolumes Fixture.ctl (Fixture.listReq "11" 3)) Fixture.tenDisks =
    (Err (status_Errorf Internal), Fixture.tenDisks, [Ev getAllFCDs Fixture.tenDisks]) /\
  run Fixture.backend (ListVolumes Fixture.ctl (Fixture.listReq "10" 3)) Fixture.tenDisks =
    (Ok {| Entries := []; NextToken := "" |}, Fixture.tenDisks,
     [Ev getAllFCDs Fixture.tenDisks]).
Proof.
  split.
  - apply (ListVolumes_start_at_or_beyond_end Fixture.backend Fixture.ctl
             Fixture.tenDisks Fixture.tenDisks Fixture.tenDisks "11" 11 3
             eq_refl eq_refl).
    cbn. lia.
  - apply (ListVolumes_start_at_or_beyond_end Fixture.backend Fixture.ctl
             Fixture.tenDisks Fixture.tenDisks Fixture.tenDisks "10" 10 3
             eq_refl eq_refl);
      [reflexivity | lia | cbn; unfold maxInt64; lia].
Defined.

Lemma ListVolumes_page_size_witness :
  exists resp,
    run Fixture.backend (ListVolumes Fixture.ctl (Fixture.listReq "6" 3)) Fixture.tenDisks =
      (Ok resp, Fixture.tenDisks, [Ev getAllFCDs Fixture.tenDisks]) /\
    Entries resp = map entryOf (take 3 (drop 6 Fixture.tenDisks)) /\
    Z.of_nat (length (Entries resp)) = Z.min 3 (10 - 6) /\
    (NextToken resp = EmptyString -> Entries resp = map entryOf (drop 6 Fixture.tenDisks)) /\
    (NextToken resp <> EmptyString ->
     Z.of_nat (length (Entries resp)) = 3 /\ startOf (NextToken resp) = Some (6 + 3)).
Proof.
  apply (ListVolumes_page_size Fixture.backend Fixture.ctl Fixture.tenDisks
           Fixture.tenDisks Fixture.tenDisks "6" 6 3 eq_refl eq_refl);
    [cbn; lia | lia | cbn; unfold maxInt64; lia].
Defined.

Lemma ListVolumes_negative_maxEntries_panics_witness :
  outcome (run Fixture.backend (ListVolumes Fixture.ctl (Fixture.listReq "2" (-1)))
             Fixture.tenDisks) = Panics.
Proof.
  apply (ListVolumes_negative_maxEntries_panics Fixture.backend Fixture.ctl
           Fixture.tenDisks "2" 2 (-1) eq_refl);
    [cbn; lia | cbn; unfold maxInt64; lia | lia].
Defined.

Lemma ListVolumes_traversal_witness :
  listAll Fixture.backend Fixture.ctl 3 11 "" Fixture.tenDisks =
    Some (map entryOf Fixture.tenDisks).
Proof.
  apply (ListVolumes_traversal Fixture.backend Fixture.ctl
           (fun s => s = Fixture.tenDisks) Fixture.tenDisks 3 Fixture.tenDisks).
  - intros s' ->. split; reflexivity.
  - reflexivity.
  - lia.
  - cbn. unfold maxInt64. lia.
Defined.

Lemma create_delete_list_errors_are_internal_witness :
  let a := {| Requisite := None; Preferred := Some [] |} in
  let req := Fixture.createReq "pvc-1" "Datastore" 1 (Some a) in
  let plain := Fixture.createReq "pvc-1" "Datastore" 1 None in
  run Fixture.backend (CreateVolume Fixture.ctl req) [] = (Panics, [], []) /\
  classified [Internal; AlreadyExists]
    (outcome (run Fixture.backend (CreateVolume Fixture.ctl plain) [])).
Proof.
  intros a req plain.
  destruct (create_delete_list_errors_are_internal Fixture.backend Fixture.ctl [])
    as (Hclassified & Hpanics & _ & _).
  split.
  - exact (Hpanics req (Fixture.createParams "Datastore")
             ltac:(apply sample_request_valid; discriminate) eq_refl).
  - exact (Hclassified plain eq_refl).
Defined.

Lemma CreateVolume_zone_failure_witness :
  let a := {| Requisite := None; Preferred := Some [Fixture.segment "zoneA" "regionX"] |} in
  let b := {| Requisite := None; Preferred := None |} in
  let params := <[AttributeFirstClassDiskZone := "zoneA"%string]>
                  (Fixture.createParams "Datastore") in
  let legacy :=
    {| cv_Name := "pvc-1"; cv_CapacityRange := None; cv_Parameters := Some params;
       cv_AccessibilityRequirements := Some b |} in
  run Fixture.backend
      (CreateVolume Fixture.ctl (Fixture.createReq "pvc-1" "Datastore" 1 (Some a))) [] =
    (Err (status_Errorf Internal), [],
     [Ev (zoneCall Fixture.ctl "zoneA" "regionX") (inl (errors_New "no matching zone"))]) /\
  run Fixture.backend (CreateVolume Fixture.ctl legacy) [] =
    (Err (status_Errorf Internal), [],
     [Ev (zoneCall Fixture.ctl "zoneA" "regionY") (inl (errors_New "no matching zone"))]).
Proof.
  intros a b params legacy.
  destruct (CreateVolume_zone_failure Fixture.backend Fixture.ctl
              (Fixture.createReq "pvc-1" "Datastore" 1 (Some a))
              (Fixture.createParams "Datastore") []
              ltac:(apply sample_request_valid; discriminate)) as [Hgeneral _].
  assert (validCreate legacy params) as Hvalid.
  { split; [reflexivity | split; [discriminate | split; vm_compute; discriminate]]. }
  destruct (CreateVolume_zone_failure Fixture.backend Fixture.ctl legacy params []
              Hvalid) as [_ Hlegacy].
  split.
  - exact (proj1 (Hgeneral None (errors_New "no matching zone") []
                    [Ev (zoneCall Fixture.ctl "zoneA" "regionX")
                        (inl (errors_New "no matching zone"))] eq_refl)).
  - exact (Hlegacy (errors_New "no matching zone") []
             (or_intror (ex_intro _ b (conj eq_refl (conj eq_refl eq_refl)))) eq_refl).
Defined.

Lemma ControllerPublishVolume_attaches_backing_file_witness :
  let d3 := Fixture.newDisk "pool1" "Datastore" "d3" 1024 in
  let di := {| fdi_VcServer := "vc0"; fdi_DataCenter := Fixture.dc0; FCDInfo := d3 |} in
  let vm := {| vm_Name := "node-1" |} in
  let attach := AttachDisk vm "d3.vmdk" {| SCSIControllerType := PVSCSIControllerType |} in
  exists o,
    run Fixture.backend
        (ControllerPublishVolume Fixture.ctl
           {| cp_VolumeId := "fcd-d3"; cp_NodeId := "node-1" |}) Fixture.tenDisks =
      (o, Fixture.tenDisks,
       [Ev (WhichVCandDCByFCDId "fcd-d3") (inr di);
        Ev (GetVMByDNSName Fixture.dc0 "node-1") (inr vm);
        Ev attach (inr "uuid-d3.vmdk"%string)]) /\
    exists resp, o = Ok resp /\
      PublishContext resp !! AttributeFirstClassDiskPage83Data = Some "uuid-d3.vmdk"%string.
Proof.
  intros d3 di vm attach.
  destruct (ControllerPublishVolume_attaches_backing_file Fixture.backend Fixture.ctl
              "fcd-d3" "node-1" Fixture.tenDisks Fixture.tenDisks di
              ltac:(discriminate) ltac:(discriminate) eq_refl) as (_ & _ & Hattach).
  exact (Hattach vm Fixture.tenDisks "d3.vmdk"%string (inr "uuid-d3.vmdk"%string)
           Fixture.tenDisks eq_refl eq_refl eq_refl).
Defined.

Lemma ControllerUnpublishVolume_detaches_backing_file_witness :
  let d3 := Fixture.newDisk "pool1" "Datastore" "d3" 1024 in
  let di := {| fdi_VcServer := "vc0"; fdi_DataCenter := Fixture.dc0; FCDInfo := d3 |} in
  let vm := {| vm_Name := "node-1" |} in
  run Fixture.backend
      (ControllerUnpublishVolume Fixture.ctl
         {| cu_VolumeId := "fcd-d3"; cu_NodeId := "node-1" |}) Fixture.tenDisks =
    (Ok Build_ControllerUnpublishVolumeResponse, Fixture.tenDisks,
     [Ev (WhichVCandDCByFCDId "fcd-d3") (inr di);
      Ev (GetVMByDNSName Fixture.dc0 "node-1") (inr vm);
      Ev (DetachDisk vm "d3.vmdk") None]) /\
  run Fixture.backend
      (ControllerUnpublishVolume Fixture.ctl
         {| cu_VolumeId := "fcd-gone"; cu_NodeId := "node-1" |}) Fixture.tenDisks =
    (Err (status_Errorf Internal), Fixture.tenDisks,
     [Ev (WhichVCandDCByFCDId "fcd-gone") (inl ErrNoDiskIDFound)]).
Proof.
  intros d3 di vm. split.
  - destruct (ControllerUnpublishVolume_detaches_backing_file Fixture.backend Fixture.ctl
                "fcd-d3" "node-1" Fixture.tenDisks Fixture.tenDisks
                ltac:(discriminate) ltac:(discriminate)) as (_ & _ & _ & Hdetach).
    exact (Hdetach di vm Fixture.tenDisks "d3.vmdk"%string None Fixture.tenDisks
             eq_refl eq_refl eq_refl eq_refl).
  - destruct (ControllerUnpublishVolume_detaches_backing_file Fixture.backend Fixture.ctl
                "fcd-gone" "node-1" Fixture.tenDisks Fixture.tenDisks
                ltac:(discriminate) ltac:(discriminate)) as (Hunresolved & _).
    exact (Hunresolved ErrNoDiskIDFound eq_refl).
Defined.

Lemma DeleteVolume_addresses_the_reported_pool_witness :
  let d3 := Fixture.newDisk "pool1" "Datastore" "d3" 1024 in
  let di := {| fdi_VcServer := "vc0"; fdi_DataCenter := Fixture.dc0; FCDInfo := d3 |} in
  let reported := attributes "vc0" "dc0" d3 in
  exists pool,
    reported !! AttributeFirstClassDiskParentName = Some pool /\
    reported !! AttributeFirstClassDiskParentType = Some "Datastore"%string /\
    run Fixture.backend (DeleteVolume Fixture.ctl {| dv_VolumeId := "fcd-d3" |})
        Fixture.tenDisks =
      (Ok Build_DeleteVolumeResponse,
       List.filter (fun d => negb (Fixture.found FindFCDByID "fcd-d3" d)) Fixture.tenDisks,
       [Ev (WhichVCandDCByFCDId "fcd-d3") (inr di);
        Ev (DeleteFirstClassDisk Fixture.dc0 pool "Datastore" "fcd-d3") None]).
Proof.
  intros d3 di reported.
  exact (DeleteVolume_addresses_the_reported_pool Fixture.backend Fixture.ctl "fcd-d3"
           Fixture.tenDisks Fixture.tenDisks di sample_keys_distinct
           ltac:(discriminate) ltac:(discriminate) eq_refl (or_introl eq_refl)).
Defined.

Lemma CreateVolume_response_capacity_witness :
  let req :=
    {| cv_Name := "pvc-1";
       cv_CapacityRange := Some {| RequiredBytes := 1610612736; LimitBytes := 1610612736 |};
       cv_Parameters := Some (Fixture.createParams "Datastore");
       cv_AccessibilityRequirements := None |} in
  let d := Fixture.newDisk "pool1" "Datastore" "pvc-1" 2048 in
  let bytes := CapacityBytes (cv_Volume (CreateVolume_response Fixture.di0 d)) in
  bytes = 2048 * MbInBytes /\
  1610612736 <= bytes < 1610612736 + GbInBytes /\
  bytes mod GbInBytes = 0 /\
  1610612736 < bytes.
Proof.
  intros req d bytes.
  destruct (CreateVolume_response_capacity Fixture.di0 req d) as [Hexact Hsized].
  split; [apply Hexact; cbn; lia |].
  destruct (proj2 (Hsized eq_refl) {| RequiredBytes := 1610612736;
                                      LimitBytes := 1610612736 |} eq_refl
              ltac:(unfold maxInt64, GbInBytes; cbn; lia)) as (Hrange & Hwhole & Hlimit).
  split; [exact Hrange | split; [exact Hwhole |]].
  apply Hlimit; [vm_compute; discriminate | reflexivity].
Defined.

Lemma Init_stops_at_the_first_failure_witness :
  Startup.run StartupFixture.backend
    (Startup.Init StartupFixture.checkAPI StartupFixture.config) tt =
    ((Some Fixture.ctl, Some (errors_New "unsupported API version")), tt,
     [Startup.Ev (Startup.NewClient "cloud-controller-manager") None;
      Startup.Ev Startup.NewInformer tt;
      Startup.Ev Startup.GetSecretListener tt;
      Startup.Ev (Startup.NewConnectionManager StartupFixture.config)
        ["vc-a"; "vc-b"; "vc-c"]%string;
      Startup.Ev Startup.Listen tt;
      Startup.Ev (Startup.APIVersion "vc-a") (inr "6.7"%string);
      Startup.Ev (Startup.APIVersion "vc-b") (inr "6.0"%string)]).
Proof.
  destruct (Init_stops_at_the_first_failure StartupFixture.checkAPI
              StartupFixture.backend StartupFixture.config tt) as [_ Hstarted].
  destruct (Hstarted tt eq_refl) as [_ Hfailure].
  apply (Hfailure ["vc-a"%string] "vc-b"%string ["vc-c"%string] tt
           [Startup.Ev (Startup.APIVersion "vc-a") (inr "6.7"%string)]
           (inr "6.0"%string) tt (errors_New "unsupported API version") eq_refl).
  - apply (Startup.VersionsPass_cons StartupFixture.checkAPI StartupFixture.backend
             "vc-a" [] "6.7" tt tt tt []); [reflexivity | reflexivity | constructor].
  - reflexivity.
  - right. exists "6.0"%string. split; reflexivity.
Defined.

End OnTheSampleDeployment.
